(** * Verification of the output-statistics extractor and the scan executor
      of [portfolio_scanner.py] (class [PortfolioNetworkScanner]).

    The development is a shallow embedding: [_parse_statistics] becomes a
    fold of a loop body over the lines of the captured output, [scan]
    becomes a function of the environment (the outcome of the subprocess,
    the clock, the outcome of the report writer) that returns the trace of
    effects together with the value returned or the exception raised.

    Text.  A Python [str] is modelled by a Rocq [string]; its characters
    are the code points below 256.  [lower], [strip] and the two [split]s
    follow [str.lower], [str.strip] and [str.split] on that range. *)

From Stdlib Require Import ZArith Strings.String Strings.Ascii List Bool Lia.
From Stdlib Require Import DecimalString.
From stdpp Require Import gmap strings list fin_maps.
Import ListNotations.

Local Open Scope string_scope.
Local Open Scope Z_scope.

(** ** Python string primitives *)

Module PyStr.

(** [str.lower] on one character: the upper-case letters of the range
    are A..Z (65..90) and the accented capitals 192..222 without the
    multiplication sign 215; each is 32 below its lower-case form. *)
Definition lower_char (c : ascii) : ascii :=
  let n := N_of_ascii c in
  if ((65 <=? n) && (n <=? 90)
      || (192 <=? n) && (n <=? 222) && negb (n =? 215))%N
  then ascii_of_N (n + 32) else c.

Fixpoint lower (s : string) : string :=
  match s with
  | EmptyString => EmptyString
  | String c s' => String (lower_char c) (lower s')
  end.

(** [str.isspace] on one character: tab, line feed, vertical tab, form
    feed, carriage return, the four separators 28..31, space, NEL (133)
    and the no-break space (160). *)
Definition is_space (c : ascii) : bool :=
  let n := N_of_ascii c in
  ((9 <=? n) && (n <=? 13) || (28 <=? n) && (n <=? 32)
   || (n =? 133) || (n =? 160))%N.

Definition is_empty (s : string) : bool :=
  match s with EmptyString => true | String _ _ => false end.

Fixpoint lstrip (s : string) : string :=
  match s with
  | EmptyString => EmptyString
  | String c s' => if is_space c then lstrip s' else s
  end.

Fixpoint rstrip (s : string) : string :=
  match s with
  | EmptyString => EmptyString
  | String c s' =>
      let r := rstrip s' in
      if is_space c && is_empty r then EmptyString else String c r
  end.

(** [s.strip()] *)
Definition strip (s : string) : string := rstrip (lstrip s).

(** [sub in s] *)
Fixpoint contains (sub s : string) : bool :=
  String.prefix sub s
  || match s with
     | EmptyString => false
     | String _ s' => contains sub s'
     end.

(** [s.startswith(p)] *)
Definition startswith (p s : string) : bool := String.prefix p s.

(** [s.split(sep)] for a separator of one character: the pieces between
    the separators, empty pieces included; never the empty list. *)
Fixpoint split_char (sep : ascii) (s : string) : list string :=
  match s with
  | EmptyString => [EmptyString]
  | String c s' =>
      if Ascii.eqb c sep then EmptyString :: split_char sep s'
      else match split_char sep s' with
           | h :: t => String c h :: t
           | [] => [String c EmptyString]
           end
  end.

Definition cons_token (cur : string) (rest : list string) : list string :=
  if is_empty cur then rest else cur :: rest.

(** The token being read at the head of [s], and the tokens after it. *)
Fixpoint tokens (s : string) : string * list string :=
  match s with
  | EmptyString => (EmptyString, [])
  | String c s' =>
      let '(cur, rest) := tokens s' in
      if is_space c then (EmptyString, cons_token cur rest)
      else (String c cur, rest)
  end.

(** [s.split()]: the maximal runs of characters that are not white
    space. *)
Definition split_ws (s : string) : list string :=
  let '(cur, rest) := tokens s in cons_token cur rest.

(** [s.replace(old, new)] for a non-empty [old]: the occurrences are
    replaced from the left, without overlap; [skip] counts the
    characters of an occurrence still to be dropped. *)
Fixpoint replace_from (old new : string) (skip : nat) (s : string) : string :=
  match s with
  | EmptyString => EmptyString
  | String c s' =>
      match skip with
      | S k => replace_from old new k s'
      | O =>
          if String.prefix old s
          then new +:+ replace_from old new (Nat.pred (String.length old)) s'
          else String c (replace_from old new 0 s')
      end
  end.

Definition replace (old new s : string) : string := replace_from old new 0 s.

(** [l.index(x)]: the position of the first element equal to [x].  Python
    raises [ValueError] when there is none; here the result is then the
    length of [l] (see [list_index_first] for the elements of [l]). *)
Fixpoint list_index (x : string) (l : list string) : nat :=
  match l with
  | [] => O
  | y :: l' => if String.eqb x y then O else S (list_index x l')
  end.

(** [any(k in s for k in keys)] *)
Definition any_in (keys : list string) (s : string) : bool :=
  existsb (fun k => contains k s) keys.

End PyStr.

Import PyStr.

(** ** The output-statistics extractor: [_parse_statistics] *)

Module Scanner.

(** The dict [port_info]; the key ["version"] is the only optional one. *)
Record PortInfo := mkPortInfo {
  port : string;
  protocol : string;
  state : string;
  service : string;
  version : option string
}.

(** The dict [stats]: its five keys are fixed by the literal that
    creates it, and no key is added or removed afterwards. *)
Record Stats := mkStats {
  hosts_up : Z;
  open_ports : list PortInfo;
  services : list string;
  scan_status : string;
  vulnerabilities : list string
}.

(** The local variables of the loop, next to [stats]. *)
Record LoopState := mkLoop {
  stats : Stats;
  current_host : option string;
  in_port_section : bool
}.

Definition initial_stats : Stats :=
  mkStats 0 [] [] "unknown" [].

Definition initial_state : LoopState :=
  mkLoop initial_stats None false.

Definition set_host (n : Z) (status : string) (s : Stats) : Stats :=
  mkStats n (open_ports s) (services s) status (vulnerabilities s).

Definition set_status (status : string) (s : Stats) : Stats :=
  mkStats (hosts_up s) (open_ports s) (services s) status (vulnerabilities s).

Definition append_port (p : PortInfo) (s : Stats) : Stats :=
  mkStats (hosts_up s) (open_ports s ++ [p]) (services s) (scan_status s)
          (vulnerabilities s).

Definition append_vulnerability (v : string) (s : Stats) : Stats :=
  mkStats (hosts_up s) (open_ports s) (services s) (scan_status s)
          (vulnerabilities s ++ [v]).

Definition set_service (v : string) (p : PortInfo) : PortInfo :=
  mkPortInfo (port p) (protocol p) (state p) v (version p).

Definition set_version (v : string) (p : PortInfo) : PortInfo :=
  mkPortInfo (port p) (protocol p) (state p) (service p) (Some v).

(** *** Step 1 of the loop body: host status *)

Definition rule_report (line_lower : string) : bool :=
  contains "nmap scan report for" line_lower.

(** [A or B and C] is [A or (B and C)]. *)
Definition rule_up (line_lower : string) : bool :=
  contains "host is up" line_lower
  || contains "up" line_lower && contains "host" line_lower.

Definition rule_down (line_lower : string) : bool :=
  contains "0 hosts up" line_lower || contains "host seems down" line_lower.

Definition host_status (line line_lower : string) (st : LoopState) : LoopState :=
  if rule_report line_lower then
    mkLoop (set_host 1 "host_found" (stats st))
           (Some (strip (replace "Nmap scan report for" "" line)))
           (in_port_section st)
  else if rule_up line_lower then
    mkLoop (set_host 1 "host_up" (stats st)) (current_host st)
           (in_port_section st)
  else if rule_down line_lower then
    mkLoop (set_host 0 "host_down" (stats st)) (current_host st)
           (in_port_section st)
  else st.

(** *** Step 2: the header of a port table *)

Definition is_port_header (line_lower : string) : bool :=
  contains "port" line_lower && contains "state" line_lower
  && contains "service" line_lower.

(** *** Step 3: a port line and its lookahead *)

(** The lines [lines[idx + i]] for [i] in [range(1, 4)] with
    [idx + i < len(lines)]. *)
Definition following (lines : list string) (idx : nat) : list string :=
  flat_map (fun i => if (idx + i <? length lines)%nat
                     then [nth (idx + i) lines EmptyString] else [])
           [1; 2; 3]%nat.

(** The body of the lookahead loop for one following line.  The key
    ["service"] is always present in [port_info], so the first test is
    on its value only. *)
Definition refine_port (info : PortInfo) (raw_next : string) : PortInfo :=
  let next_line := strip raw_next in
  if negb (is_empty next_line)
     && negb (any_in ["nmap"; "port"; "service"; "state"] (lower next_line))
  then
    if String.eqb (service info) "unknown" then set_service next_line info
    else if contains "version" (lower next_line)
            || contains "product" (lower next_line)
         then set_version next_line info
         else info
  else info.

(** The lines that the lookahead of [line] scans: [idx] is
    [lines.index(line)]. *)
Definition scanned_lines (lines : list string) (line : string) : list string :=
  following lines (list_index line lines).

Definition lookahead (lines : list string) (line : string) (info : PortInfo)
  : PortInfo :=
  fold_left refine_port (scanned_lines lines line) info.

(** [parts[0]] passed the test on ["/tcp"] or ["/udp"], so it holds a
    ["/"] and [split('/')[1]] exists. *)
Definition new_port_info (parts : list string) : PortInfo :=
  let port_protocol := nth 0 parts EmptyString in
  mkPortInfo
    (nth 0 (split_char "/" port_protocol) EmptyString)
    (if contains "/" port_protocol
     then nth 1 (split_char "/" port_protocol) EmptyString else "tcp")
    (nth 1 parts EmptyString)
    (if (2 <? length parts)%nat then nth 2 parts EmptyString else "unknown")
    None.

(** The test that guards the parsing of a port line. *)
Definition port_candidate (in_section : bool) (line : string) : bool :=
  in_section && negb (is_empty (strip line))
  && negb (startswith "Nmap" line) && negb (startswith "|" line).

(** A candidate line that describes an open port. *)
Definition open_port_parts (parts : list string) : bool :=
  (2 <=? length parts)%nat
  && (contains "/tcp" (lower (nth 0 parts EmptyString))
      || contains "/udp" (lower (nth 0 parts EmptyString)))
  && String.eqb (lower (nth 1 parts EmptyString)) "open".

Definition port_line (lines : list string) (line : string) (st : LoopState)
  : LoopState :=
  if port_candidate (in_port_section st) line then
    let parts := split_ws line in
    if open_port_parts parts then
      mkLoop (append_port (lookahead lines line (new_port_info parts)) (stats st))
             (current_host st) (in_port_section st)
    else st
  else st.

(** *** Step 4: the end of the port section *)

Definition end_port_section (line line_lower : string) (st : LoopState)
  : LoopState :=
  if in_port_section st
     && (startswith "Nmap" line || contains "read data files" line_lower
         || is_empty (strip line))
  then mkLoop (stats st) (current_host st) false
  else st.

(** *** Step 5: vulnerability findings *)

Definition vuln_keywords : list string :=
  ["vuln"; "cve-"; "vulnerability"; "risk"; "exploit"].

Definition vuln_line (line line_lower : string) (st : LoopState) : LoopState :=
  if any_in vuln_keywords line_lower then
    if negb (is_empty (strip line)) then
      mkLoop (append_vulnerability (strip line) (stats st))
             (current_host st) (in_port_section st)
    else st
  else st.

(** *** The loop body; the header of a port table ends it early
    ([continue]). *)
Definition loop_body (lines : list string) (st : LoopState) (line : string)
  : LoopState :=
  let line_lower := lower line in
  let st1 := host_status line line_lower st in
  if is_port_header line_lower then
    mkLoop (stats st1) (current_host st1) true
  else
    vuln_line line line_lower
      (end_port_section line line_lower (port_line lines line st1)).

Definition run_loop (lines : list string) : LoopState :=
  fold_left (loop_body lines) lines initial_state.

(** *** Steps 6 and 7, after the loop *)

Definition implied_host (s : Stats) : Stats :=
  if (hosts_up s =? 0)
     && negb (match open_ports s with [] => true | _ :: _ => false end)
  then set_host 1 "implied_host_up" s
  else s.

Definition default_status (output : string) (s : Stats) : Stats :=
  if String.eqb (scan_status s) "unknown" then
    if contains "scan report" (lower output) then set_status "completed" s
    else if contains "nmap done" (lower output)
         then set_status "completed_no_hosts" s
         else s
  else s.

Definition _parse_statistics (output : string) : Stats :=
  if is_empty output then set_status "no_output" initial_stats
  else
    let lines := split_char "010" output in
    default_status output (implied_host (stats (run_loop lines))).

End Scanner.

Import Scanner.

(** A line feed, to write inputs of several lines. *)
Definition nl : string := String "010" EmptyString.

Definition unlines (ls : list string) : string :=
  String.concat nl ls.

(** ** The scan executor: [scan] *)

Module Executor.

(** The values that a result dict holds (what [json.dump] writes). *)
#[warnings="-register-all"] Inductive value :=
| VBool (b : bool)
| VInt (n : Z)
| VStr (s : string)
| VList (l : list value)
| VDict (d : gmap string value).

Record Profile := mkProfile {
  command : string;
  description : string;
  time : string
}.

(** The entries of [SCAN_PROFILES], in the order of the dict literal. *)
Definition profile_entries : list (string * Profile) :=
  [("discovery", mkProfile "-sn" "Host discovery only" "Fast");
   ("quick", mkProfile "-sS -T4 -F" "Quick TCP port scan" "Medium");
   ("comprehensive",
    mkProfile "-sS -sV -sC -O -A"
              "Comprehensive scan with OS/version detection" "Slow");
   ("vulnerability",
    mkProfile "-sV --script vuln,safe" "Vulnerability assessment" "Very Slow");
   ("udp", mkProfile "-sU --top-ports 100" "Top UDP ports scan" "Medium")].

Definition SCAN_PROFILES : gmap string Profile := list_to_map profile_entries.

(** [repr] of a list of plain words. *)
Definition repr_words (ws : list string) : string :=
  "[" +:+ String.concat ", " (map (fun w => "'" +:+ w +:+ "'") ws) +:+ "]".

Definition invalid_profile_message : string :=
  "Invalid profile. Choose from: " +:+ repr_words (map fst profile_entries).

(** What [subprocess.run] does: it returns a completed process, or the
    time limit expires, or it fails with another exception. *)
Inductive run_outcome :=
| Completed (returncode : Z) (stdout stderr : string)
| TimeoutExpired
| RunFailed.

(** The world around [scan]: the clock, the subprocess, and whether the
    four report files can be written. *)
Record Env := mkEnv {
  now : string;
  run : string -> Z -> run_outcome;
  reports_written : gmap string value -> string -> bool
}.

(** The effects of [scan] outside the console. *)
Inductive event :=
| Spawn (cmd : string) (timeout : Z)
| SaveReports (result : gmap string value) (profile : string)
| DisplayResults (result : gmap string value).

Inductive exn :=
| ValueError (msg : string)
| OSError.

Inductive outcome :=
| Return (result : gmap string value)
| Raise (e : exn).

Definition port_dict (p : PortInfo) : gmap string value :=
  list_to_map
    ([("port", VStr (port p)); ("protocol", VStr (protocol p));
      ("state", VStr (state p)); ("service", VStr (service p))]
     ++ match version p with
        | Some v => [("version", VStr v)]
        | None => []
        end).

(** The dict that [_parse_statistics] returns. *)
Definition stats_dict (s : Stats) : gmap string value :=
  list_to_map
    [("hosts_up", VInt (hosts_up s));
     ("open_ports", VList (map (fun p => VDict (port_dict p)) (open_ports s)));
     ("services", VList (map VStr (services s)));
     ("scan_status", VStr (scan_status s));
     ("vulnerabilities", VList (map VStr (vulnerabilities s)))].

Definition command_line (info : Profile) (target : string) : string :=
  "nmap " +:+ command info +:+ " " +:+ target.

Definition timeout_of (profile : string) : Z :=
  if String.eqb profile "vulnerability" then 900 else 600.

Definition scan_result (env : Env) (target profile cmd : string)
           (returncode : Z) (stdout stderr : string) : gmap string value :=
  list_to_map
    [("metadata",
      VDict (list_to_map
               [("target", VStr target); ("profile", VStr profile);
                ("timestamp", VStr (now env)); ("command", VStr cmd);
                ("success", VBool (returncode =? 0));
                ("return_code", VInt returncode)]));
     ("raw_output", VStr stdout);
     ("raw_errors", VStr stderr);
     ("statistics", VDict (stats_dict (_parse_statistics stdout)))].

Definition partial_result (env : Env) (target profile cmd : string)
  : gmap string value :=
  list_to_map
    [("metadata",
      VDict (list_to_map
               [("target", VStr target); ("profile", VStr profile);
                ("timestamp", VStr (now env)); ("command", VStr cmd);
                ("success", VBool false); ("error", VStr "Timeout")]));
     ("statistics",
      VDict (list_to_map
               [("hosts_up", VInt 0); ("open_ports", VList []);
                ("scan_status", VStr "timeout")]))].

(** [scan]: the trace of effects, and the value returned or the
    exception raised.  An exception of the report writer is caught by
    [except Exception] on the normal path and leaves [scan] on the
    time-out path, where the writer runs inside the handler. *)
Definition scan (env : Env) (target profile : string) : list event * outcome :=
  match SCAN_PROFILES !! profile with
  | None => ([], Raise (ValueError invalid_profile_message))
  | Some profile_info =>
      let cmd := command_line profile_info target in
      let timeout := timeout_of profile in
      match run env cmd timeout with
      | Completed returncode stdout stderr =>
          let result := scan_result env target profile cmd returncode stdout stderr in
          if reports_written env result profile
          then ([Spawn cmd timeout; SaveReports result profile;
                 DisplayResults result], Return result)
          else ([Spawn cmd timeout; SaveReports result profile], Return ∅)
      | TimeoutExpired =>
          let result := partial_result env target profile cmd in
          if reports_written env result profile
          then ([Spawn cmd timeout; SaveReports result profile], Return result)
          else ([Spawn cmd timeout; SaveReports result profile], Raise OSError)
      | RunFailed => ([Spawn cmd timeout], Return ∅)
      end
  end.

(** [k in d] *)
Definition has_key (k : string) (d : gmap string value) : bool :=
  match d !! k with Some _ => true | None => false end.

Definition statistics_fields : list string :=
  ["hosts_up"; "open_ports"; "services"; "scan_status"; "vulnerabilities"].

(** The keys of the dict under ["statistics"], among the five fields. *)
Definition statistics_keys (r : gmap string value) : list string :=
  match r !! "statistics" with
  | Some (VDict s) => List.filter (fun k => has_key k s) statistics_fields
  | _ => []
  end.

(** A result with the raw output, the raw errors and the five
    statistics. *)
Definition complete_result (r : gmap string value) : bool :=
  has_key "raw_output" r && has_key "raw_errors" r
  && bool_decide (statistics_keys r = statistics_fields).

Definition spawns (t : list event) : list event :=
  List.filter (fun e => match e with Spawn _ _ => true | _ => false end) t.

End Executor.

Import Executor.

(** ** Definitions used in the statements *)

(** A string of white space only. *)
Fixpoint all_space (s : string) : bool :=
  match s with
  | EmptyString => true
  | String c s' => is_space c && all_space s'
  end.

(** The two values that [hosts_up] takes. *)
Definition zero_or_one (n : Z) : Prop := n = 0 \/ n = 1.

(** The lines that step 5 records: a header of a port table never
    reaches step 5. *)
Definition captured (line : string) : bool :=
  negb (is_port_header (lower line))
  && any_in vuln_keywords (lower line)
  && negb (is_empty (strip line)).

(** A line on which step 1 writes nothing. *)
Definition no_host_rule (line : string) : bool :=
  negb (rule_report (lower line)) && negb (rule_up (lower line))
  && negb (rule_down (lower line)).

(** The three lines of the example of C6, with the header that nmap
    prints. *)
Definition report_with_one_port : string :=
  unlines ["Nmap scan report for 10.0.0.5";
           "PORT   STATE SERVICE";
           "80/tcp open http"].

(** Two reports of one scan in which both hosts answer on port 80. *)
Definition two_host_report : list string :=
  ["Nmap scan report for 10.0.0.1";
   "PORT   STATE SERVICE";
   "80/tcp open  http";
   "| http-generator: product A version 1.0";
   "";
   "Nmap scan report for 10.0.0.2";
   "PORT   STATE SERVICE";
   "80/tcp open  http";
   "| http-generator: product B version 2.0"].

(** The last line that nmap prints when the target did not answer. *)
Definition nmap_done_no_hosts : string :=
  "Nmap done: 1 IP address (0 hosts up) scanned in 3.05 seconds".

(** A line of a script result that names the three words of a table
    header. *)
Definition script_state_line : string :=
  "|   State: VULNERABLE - service on port 443 is exploitable".

(** A finding with white space before and after it. *)
Definition indented_finding : string := "  CVE-2021-44228 ".

(** A line that leaves what a report line wrote: it is a report line
    itself, or no rule of step 1 applies to it. *)
Definition keeps_report (line : string) : bool :=
  rule_report (lower line) || no_host_rule line.

(** A line with the phrase "scan report for" and no "nmap" before it. *)
Definition bare_report_line : string := "Scan report for 10.0.0.5".

(** Two worlds for the examples: one where the subprocess exceeds its
    time limit, one where it completes with a given output. *)
Definition timing_out : Env :=
  mkEnv "2025-01-01T00:00:00" (fun _ _ => TimeoutExpired) (fun _ _ => true).

Definition answering (out : string) : Env :=
  mkEnv "2025-01-01T00:00:00" (fun _ _ => Completed 0 out EmptyString)
        (fun _ _ => true).

(** The result of a quick scan of one host that completed with the
    output of the example of C6. *)
Definition quick_result : gmap string value :=
  scan_result (answering report_with_one_port) "10.0.0.5" "quick"
              "nmap -sS -T4 -F 10.0.0.5" 0 report_with_one_port EmptyString.

(** The steps of the body, unfolded, with one case per test. *)
Ltac body_cases :=
  unfold loop_body, vuln_line, end_port_section, port_line, host_status;
  repeat (cbn [stats current_host in_port_section negb andb orb];
          match goal with
          | |- context [if ?b then _ else _] => destruct b eqn:?
          end);
  cbn [stats current_host in_port_section set_host append_port
       append_vulnerability hosts_up open_ports services scan_status
       vulnerabilities].

(** ** Definitions for the further properties *)

(** The coupling of the two host fields while the loop runs. *)
Definition loop_coupling (s : Stats) : Prop :=
  (hosts_up s = 0 /\ (scan_status s = "unknown" \/ scan_status s = "host_down"))
  \/ (hosts_up s = 1
      /\ (scan_status s = "host_found" \/ scan_status s = "host_up")).

(** A record made from [line]: the lookahead leaves the port, the
    protocol and the state as the line gives them. *)
Definition record_of (line : string) (p : PortInfo) : Prop :=
  startswith "Nmap" line = false
  /\ startswith "|" line = false
  /\ open_port_parts (split_ws line) = true
  /\ port p = port (new_port_info (split_ws line))
  /\ protocol p = protocol (new_port_info (split_ws line))
  /\ state p = state (new_port_info (split_ws line)).

(** The header of a port table and one open port, with no line about a
    host. *)
Definition ports_without_host : string :=
  unlines ["PORT   STATE SERVICE"; "22/tcp open ssh"].

(** The note that nmap prints for a host that did not answer; without the
    second sentence of the real note, which holds the word "up". *)
Definition host_seems_down : string := "Note: Host seems down.".

(** A line that step 3 records as an open port, in a given mode. *)
Definition recorded (in_section : bool) (line : string) : bool :=
  negb (is_port_header (lower line))
  && port_candidate in_section line
  && open_port_parts (split_ws line).

(** ** The report writer and the console presenter *)

Module Reports.

(** *** File names of [_save_reports] *)

(** [self.target.replace('/', '_').replace('.', '_')] *)
Definition safe_target (target : string) : string :=
  replace "." "_" (replace "/" "_" target).

(** [base_name]; the time stamp is [datetime.now().strftime(...)]. *)
Definition base_name (output_dir target profile timestamp : string) : string :=
  output_dir +:+ "/" +:+ safe_target target +:+ "_" +:+ profile +:+ "_"
  +:+ timestamp.

(** The four files that [_save_reports] opens for writing, in its order:
    text, JSON, Markdown, HTML. *)
Definition report_files (output_dir target profile timestamp : string)
  : list string :=
  let base := base_name output_dir target profile timestamp in
  [base +:+ ".txt"; base +:+ ".json"; base +:+ ".md"; base +:+ "_report.html"].

(** The keys that the text report reads with [result['metadata'][k]],
    which raises [KeyError] for a missing key. *)
Definition indexed_metadata_keys : list string :=
  ["target"; "profile"; "timestamp"; "command"; "success"].

(** [k in result['metadata']], false also when there is no such dict. *)
Definition metadata_has (result : gmap string value) (k : string) : bool :=
  match result !! "metadata" with
  | Some (VDict m) => has_key k m
  | _ => false
  end.

(** *** The text report *)

(** ['=' * 60] *)
Definition rule : string :=
  "============================================================".

(** [str(v)] as an f-string writes a field; the text of a list or of a
    dict is not modelled. *)
Definition str_value (v : value) : option string :=
  match v with
  | VStr s => Some s
  | VBool b => Some (if b then "True" else "False")
  | VInt n => Some (NilZero.string_of_int (Z.to_int n))
  | VList _ | VDict _ => None
  end.

(** [result['metadata'][k]] written in an f-string: [None] for a missing
    key, which raises [KeyError]. *)
Definition metadata_field (k : string) (result : gmap string value)
  : option string :=
  match result !! "metadata" with
  | Some (VDict m) => m !! k ≫= str_value
  | _ => None
  end.

(** The text under [k] that the tests ['k' in result and result['k']]
    guard: empty when the key is missing; a value that is no string is
    not modelled, and gives [None]. *)
Definition guarded_text (k : string) (result : gmap string value)
  : option string :=
  match result !! k with
  | None => Some EmptyString
  | Some (VStr s) => Some s
  | Some _ => None
  end.

(** The writes of the text report, one per line, in their order. *)
Definition report_text
           (target profile timestamp command success output errors : string)
  : string :=
  ("Network Security Scan Report" +:+ nl)
  +:+ (rule +:+ nl)
  +:+ ("Target: " +:+ target +:+ nl)
  +:+ ("Profile: " +:+ profile +:+ nl)
  +:+ ("Timestamp: " +:+ timestamp +:+ nl)
  +:+ ("Command: " +:+ command +:+ nl)
  +:+ ("Success: " +:+ success +:+ nl)
  +:+ (rule +:+ nl +:+ nl)
  +:+ (if is_empty output then "No scan output available" +:+ nl else output)
  +:+ (if is_empty errors then EmptyString
       else (nl +:+ rule +:+ nl +:+ "ERRORS/ADVERTENCIAS:" +:+ nl +:+ rule
             +:+ nl) +:+ errors).

(** What [_save_reports] writes to the ".txt" file. *)
Definition text_report (result : gmap string value) : option string :=
  target ← metadata_field "target" result;
  profile ← metadata_field "profile" result;
  timestamp ← metadata_field "timestamp" result;
  command ← metadata_field "command" result;
  success ← metadata_field "success" result;
  output ← guarded_text "raw_output" result;
  errors ← guarded_text "raw_errors" result;
  Some (report_text target profile timestamp command success output errors).

(** *** HTML fragments *)

(** The character that delimits the attributes of the tags. *)
Definition dq : string := String (ascii_of_nat 34) EmptyString.

(** [str(n)] for a count. *)
Definition str_of_nat (n : nat) : string :=
  NilZero.string_of_uint (Nat.to_uint n).

(** [d.get(k, default)] on a dict of strings. *)
Definition dict_get (k default : string) (d : gmap string string) : string :=
  match d !! k with Some v => v | None => default end.

(** The dict [port_info] as the dict of strings that it is. *)
Definition port_fields (p : PortInfo) : gmap string string :=
  list_to_map
    ([("port", port p); ("protocol", protocol p); ("state", state p);
      ("service", service p)]
     ++ match version p with
        | Some v => [("version", v)]
        | None => []
        end).

(** One turn of the loop of [_generate_ports_html]: the row of a port. *)
Definition ports_row (port : gmap string string) : string :=
  let state_class :=
    match port !! "state" with
    | Some s => if String.eqb s "open" then "port-open" else ""
    | None => ""
    end in
  "<tr>"
  +:+ ("<td>" +:+ dict_get "port" "" port +:+ "</td>")
  +:+ ("<td>" +:+ dict_get "protocol" "tcp" port +:+ "</td>")
  +:+ ("<td class=" +:+ dq +:+ state_class +:+ dq +:+ ">"
       +:+ dict_get "state" "" port +:+ "</td>")
  +:+ ("<td>" +:+ dict_get "service" "unknown" port +:+ "</td>")
  +:+ "</tr>".

Definition ports_heading : string :=
  "<h2><i class=" +:+ dq +:+ "fas fa-plug" +:+ dq +:+ "></i> Open Ports</h2>".

Definition _generate_ports_html (ports : list (gmap string string)) : string :=
  match ports with
  | [] => ports_heading +:+ "<p>No open ports found.</p>"
  | _ :: _ =>
      let html := ports_heading in
      let html := html +:+ ("<table class=" +:+ dq +:+ "ports-table" +:+ dq +:+ ">") in
      let html :=
        html +:+ "<thead><tr><th>Port</th><th>Protocol</th><th>State</th><th>Service</th></tr></thead>" in
      let html := html +:+ "<tbody>" in
      let html := fold_left (fun html port => html +:+ ports_row port) ports html in
      html +:+ "</tbody></table>"
  end.

(** One entry of the list of [_generate_vulnerabilities_html]. *)
Definition vuln_item (text : string) : string :=
  "<div class=" +:+ dq +:+ "vuln-item" +:+ dq +:+ ">" +:+ text +:+ "</div>".

Definition vulnerabilities_heading : string :=
  "<h2><i class=" +:+ dq +:+ "fas fa-exclamation-triangle" +:+ dq
  +:+ "></i> Potential Vulnerabilities</h2>".

Definition _generate_vulnerabilities_html (vulnerabilities : list string)
  : string :=
  match vulnerabilities with
  | [] => EmptyString
  | _ :: _ =>
      let html := vulnerabilities_heading in
      let html := html +:+ ("<div class=" +:+ dq +:+ "vuln-list" +:+ dq +:+ ">") in
      let html :=
        fold_left (fun html vuln => html +:+ vuln_item vuln)
                  (firstn 10 vulnerabilities) html in
      let html :=
        if (10 <? length vulnerabilities)%nat
        then html +:+ vuln_item ("... and "
                                 +:+ str_of_nat (length vulnerabilities - 10)
                                 +:+ " more")
        else html in
      html +:+ "</div>"
  end.

(** *** Elision in [_display_results] *)

(** The service of a port as the console shows it: [service[:27] + "..."]
    when it is longer than 30 characters. *)
Definition shown_service (service : string) : string :=
  if (30 <? String.length service)%nat
  then String.substring 0 27 service +:+ "..."
  else service.

(** A vulnerability as the console shows it: [vuln[:57] + "..."] when it
    is longer than 60 characters. *)
Definition shown_vulnerability (vuln : string) : string :=
  if (60 <? String.length vuln)%nat
  then String.substring 0 57 vuln +:+ "..."
  else vuln.

End Reports.

Import Reports.

(** The character-wise reading of [replace] for a single character. *)
Fixpoint subst_char (a b : ascii) (s : string) : string :=
  match s with
  | EmptyString => EmptyString
  | String c s' => String (if Ascii.eqb c a then b else c) (subst_char a b s')
  end.

(** [c in s] for a character. *)
Fixpoint has_char (x : ascii) (s : string) : bool :=
  match s with
  | EmptyString => false
  | String c s' => Ascii.eqb c x || has_char x s'
  end.

(** A target that tries to leave the output directory. *)
Definition climbing_target : string := "../../etc/passwd".

(** Twelve findings, for a list longer than the ten that are shown. *)
Definition twelve_findings (last : string) : list string :=
  ["CVE-1"; "CVE-2"; "CVE-3"; "CVE-4"; "CVE-5"; "CVE-6"; "CVE-7"; "CVE-8";
   "CVE-9"; "CVE-10"; "CVE-11"; last].

(** The row of the ports table for a port record, spelled out from its
    fields. *)
Definition port_row_text (p : PortInfo) : string :=
  "<tr><td>" +:+ port p +:+ "</td><td>" +:+ protocol p
  +:+ "</td><td class=" +:+ dq
  +:+ (if String.eqb (state p) "open" then "port-open" else "")
  +:+ dq +:+ ">" +:+ state p
  +:+ "</td><td>" +:+ service p +:+ "</td></tr>".

(** A finding whose text is markup. *)
Definition markup_finding : string := "<script>alert(1)</script> CVE-2024-1".

(** A port whose service text is markup. *)
Definition markup_port : PortInfo :=
  mkPortInfo "80" "tcp" "open" "<b>http</b>" None.

(** ** The converter [json_to_html] *)

Module JsonToHtml.

(** [data.get(k, 'Unknown')] on the object read from the JSON file. *)
Definition data_get (k : string) (data : gmap string value) : value :=
  match data !! k with Some v => v | None => VStr "Unknown" end.

(** The three fields that [json_to_html] reads from the object. *)
Definition header_fields (data : gmap string value) : value * value * value :=
  (data_get "target" data, data_get "scan_type" data,
   data_get "timestamp" data).

(** [json_file.replace('.json', '_report.html')]: the file that the
    converter writes. *)
Definition html_file (json_file : string) : string :=
  replace ".json" "_report.html" json_file.

End JsonToHtml.

Import JsonToHtml.

(** A file name whose extension is in capitals. *)
Definition capital_json : string := "scan_results/host.JSON".

(** ** The definitions on small inputs *)

Example lower_ex : lower "Nmap Scan REPORT" = "nmap scan report".
Proof. reflexivity. Qed.
Example strip_ex : strip ("  a b " +:+ String "009" "") = "a b".
Proof. reflexivity. Qed.
Example split_ws_ex : split_ws " 80/tcp   open  http " = ["80/tcp"; "open"; "http"].
Proof. reflexivity. Qed.
Example split_char_ex : split_char "/" "a/b//c" = ["a"; "b"; ""; "c"].
Proof. reflexivity. Qed.
Example replace_ex : replace "XX" "y" "aXXXb" = "ayXb".
Proof. reflexivity. Qed.

Example parse_ex_two_lines :
  _parse_statistics (unlines ["Host is up (0.01s latency)."; "Nmap done: 1 IP address"])
  = mkStats 1 [] [] "host_up" [].
Proof. vm_compute. reflexivity. Qed.

(** ** Facts about the string primitives *)

Section Substrings.

Lemma prefix_nil (s : string) : String.prefix EmptyString s = true.
Proof. destruct s; reflexivity. Qed.

Lemma prefix_empty (s : string) : String.prefix s EmptyString = true -> s = EmptyString.
Proof. destruct s; [reflexivity | discriminate]. Qed.

Lemma prefix_cons_inv (c : ascii) (b' s : string) :
  String.prefix (String c b') s = true ->
  exists s', s = String c s' /\ String.prefix b' s' = true.
Proof.
  destruct s as [|d s']; simpl; [discriminate|].
  destruct (Ascii.ascii_dec c d) as [->|]; [|discriminate].
  intros H. exists s'. split; [reflexivity | exact H].
Qed.

Lemma prefix_cons (c : ascii) (a s : string) :
  String.prefix a s = true -> String.prefix (String c a) (String c s) = true.
Proof.
  intros H. simpl. destruct (Ascii.ascii_dec c c); [exact H | congruence].
Qed.

Lemma prefix_trans (a b s : string) :
  String.prefix a b = true -> String.prefix b s = true -> String.prefix a s = true.
Proof.
  revert b s. induction a as [|c a IH]; intros b s Hab Hbs; [apply prefix_nil|].
  apply prefix_cons_inv in Hab as (b' & -> & Hab).
  apply prefix_cons_inv in Hbs as (s' & -> & Hbs).
  apply prefix_cons. eapply IH; eassumption.
Qed.

Lemma contains_here (a s : string) :
  String.prefix a s = true -> contains a s = true.
Proof. intros H. destruct s; simpl in *; rewrite H; reflexivity. Qed.

Lemma contains_later (a : string) (c : ascii) (s : string) :
  contains a s = true -> contains a (String c s) = true.
Proof.
  intros H. change (String.prefix a (String c s) || contains a s = true).
  rewrite H. apply orb_true_r.
Qed.

Lemma contains_cons_inv (a : string) (c : ascii) (s : string) :
  contains a (String c s) = true ->
  String.prefix a (String c s) = true \/ contains a s = true.
Proof.
  intros H. change (String.prefix a (String c s) || contains a s = true) in H.
  apply orb_true_iff in H. exact H.
Qed.

Lemma contains_empty_inv (a : string) :
  contains a EmptyString = true -> a = EmptyString.
Proof.
  simpl. rewrite orb_false_r. apply prefix_empty.
Qed.

Lemma contains_prefix_trans (a b s : string) :
  contains a b = true -> String.prefix b s = true -> contains a s = true.
Proof.
  revert s. induction b as [|c b IH]; intros s Hab Hbs.
  - apply contains_empty_inv in Hab as ->. apply contains_here, prefix_nil.
  - apply prefix_cons_inv in Hbs as (s' & -> & Hbs).
    apply contains_cons_inv in Hab as [Hab|Hab].
    + apply contains_here. eapply prefix_trans; [exact Hab|].
      apply prefix_cons. exact Hbs.
    + apply contains_later. apply IH; assumption.
Qed.

(** A substring of a substring is a substring. *)
Lemma contains_trans (a b s : string) :
  contains a b = true -> contains b s = true -> contains a s = true.
Proof.
  intros Hab. induction s as [|c s IH]; intros Hbs.
  - apply contains_empty_inv in Hbs as ->. exact Hab.
  - apply contains_cons_inv in Hbs as [Hbs|Hbs].
    + eapply contains_prefix_trans; eassumption.
    + apply contains_later. apply IH. exact Hbs.
Qed.

End Substrings.

Section WhiteSpace.

Lemma is_space_lower_char (c : ascii) : is_space (lower_char c) = is_space c.
Proof. destruct c as [[] [] [] [] [] [] [] []]; reflexivity. Qed.

Lemma rstrip_empty (s : string) : is_empty (rstrip s) = all_space s.
Proof.
  induction s as [|c s IH]; [reflexivity|].
  simpl. rewrite IH. destruct (is_space c), (all_space s); reflexivity.
Qed.

Lemma lstrip_all_space (s : string) : all_space (lstrip s) = all_space s.
Proof.
  induction s as [|c s IH]; [reflexivity|].
  simpl. destruct (is_space c) eqn:E; simpl; [exact IH|].
  rewrite E. reflexivity.
Qed.

(** [s.strip()] is empty exactly when [s] has white space only. *)
Lemma strip_empty (s : string) : is_empty (strip s) = all_space s.
Proof. unfold strip. rewrite rstrip_empty. apply lstrip_all_space. Qed.

(** A line whose lower-case form holds a word that starts with a visible
    character is not blank. *)
Lemma contains_lower_not_blank (c : ascii) (k l : string) :
  is_space c = false ->
  contains (String c k) (lower l) = true -> all_space l = false.
Proof.
  intros Hc. induction l as [|a l IH]; intros H.
  - apply contains_empty_inv in H. discriminate.
  - change (lower (String a l)) with (String (lower_char a) (lower l)) in H.
    apply contains_cons_inv in H as [H|H].
    + apply prefix_cons_inv in H as (s' & [= Ha _] & _).
      simpl. rewrite <- is_space_lower_char, Ha, Hc. reflexivity.
    + simpl. rewrite (IH H). apply andb_false_r.
Qed.

End WhiteSpace.

Section Index.

(** For an element of the list, [list_index] is in range and is the
    position of its first occurrence: Python's [ValueError] cannot
    happen in a loop over the list itself. *)
Lemma list_index_first (x : string) (l : list string) :
  In x l ->
  (list_index x l < length l)%nat
  /\ nth (list_index x l) l EmptyString = x
  /\ forall j, (j < list_index x l)%nat -> nth j l EmptyString <> x.
Proof.
  induction l as [|y l IH]; intros Hin; [destruct Hin|].
  simpl. destruct (String.eqb x y) eqn:E.
  - apply String.eqb_eq in E as ->. repeat split; [simpl; lia | intros j Hj; lia].
  - apply String.eqb_neq in E.
    destruct Hin as [->|Hin]; [congruence|].
    destruct (IH Hin) as (H1 & H2 & H3).
    repeat split; [simpl; lia | exact H2 |].
    intros [|j] Hj; [simpl; congruence | simpl; apply H3; lia].
Qed.

(** The position of an occurrence that no equal line precedes. *)
Lemma list_index_unique (l : list string) (k : nat) :
  (k < length l)%nat ->
  (forall j, (j < k)%nat -> nth j l EmptyString <> nth k l EmptyString) ->
  list_index (nth k l EmptyString) l = k.
Proof.
  revert k. induction l as [|y l IH]; intros k Hk Hfirst; [simpl in Hk; lia|].
  destruct k as [|k]; simpl.
  - rewrite String.eqb_refl. reflexivity.
  - destruct (String.eqb (nth k l EmptyString) y) eqn:E.
    + apply String.eqb_eq in E. exfalso.
      apply (Hfirst O); [lia | simpl; congruence].
    + f_equal. apply IH; [simpl in Hk; lia|].
      intros j Hj. apply (Hfirst (S j)). lia.
Qed.

End Index.

(** ** Facts about the loop of [_parse_statistics] *)

Section Loop.

Lemma fold_left_preserves {A B : Type} (P : A -> Prop) (f : A -> B -> A)
      (l : list B) (a : A) :
  P a -> (forall a b, P a -> P (f a b)) -> P (fold_left f l a).
Proof.
  intros Ha Hstep. revert a Ha.
  induction l as [|b l IH]; intros a Ha; simpl; [exact Ha|].
  apply IH, Hstep, Ha.
Qed.

(** No step of the body touches [services]. *)
Lemma loop_body_services (lines : list string) (st : LoopState) (line : string) :
  services (stats (loop_body lines st line)) = services (stats st).
Proof. body_cases; reflexivity. Qed.

(** The body writes 0 or 1 to [hosts_up], or leaves it. *)
Lemma loop_body_hosts_up (lines : list string) (st : LoopState) (line : string) :
  zero_or_one (hosts_up (stats st)) ->
  zero_or_one (hosts_up (stats (loop_body lines st line))).
Proof. intros H. unfold zero_or_one in *. body_cases; auto. Qed.

Lemma loop_body_vulnerabilities (lines : list string) (st : LoopState)
      (line : string) :
  vulnerabilities (stats (loop_body lines st line))
  = (vulnerabilities (stats st)
     ++ (if captured line then [strip line] else []))%list.
Proof.
  unfold captured, loop_body, vuln_line.
  destruct (is_port_header (lower line)), (any_in vuln_keywords (lower line)),
    (is_empty (strip line));
    body_cases; rewrite ?app_nil_r; reflexivity.
Qed.

Lemma run_vulnerabilities (lines ls : list string) (st : LoopState) :
  vulnerabilities (stats (fold_left (loop_body lines) ls st))
  = (vulnerabilities (stats st) ++ map strip (List.filter captured ls))%list.
Proof.
  revert st. induction ls as [|l ls IH]; intros st; simpl.
  - rewrite app_nil_r. reflexivity.
  - rewrite IH, loop_body_vulnerabilities.
    destruct (captured l); simpl; rewrite <- ?app_assoc; reflexivity.
Qed.

Lemma loop_body_report (lines : list string) (st : LoopState) (line : string) :
  rule_report (lower line) = true ->
  hosts_up (stats (loop_body lines st line)) = 1
  /\ scan_status (stats (loop_body lines st line)) = "host_found".
Proof. intros H. body_cases; try discriminate; split; reflexivity. Qed.

Lemma loop_body_no_host_rule (lines : list string) (st : LoopState)
      (line : string) :
  no_host_rule line = true ->
  hosts_up (stats (loop_body lines st line)) = hosts_up (stats st)
  /\ scan_status (stats (loop_body lines st line)) = scan_status (stats st).
Proof.
  unfold no_host_rule. intros H.
  apply andb_true_iff in H as [H H3]. apply andb_true_iff in H as [H1 H2].
  apply negb_true_iff in H1, H2, H3.
  body_cases; try discriminate; split; reflexivity.
Qed.

(** The two steps after the loop touch neither list. *)
Lemma post_pass_services (output : string) (s : Stats) :
  services (default_status output (implied_host s)) = services s.
Proof.
  unfold default_status, implied_host.
  repeat match goal with
         | |- context [if ?b then _ else _] => destruct b
         end; reflexivity.
Qed.

Lemma post_pass_vulnerabilities (output : string) (s : Stats) :
  vulnerabilities (default_status output (implied_host s)) = vulnerabilities s.
Proof.
  unfold default_status, implied_host.
  repeat match goal with
         | |- context [if ?b then _ else _] => destruct b
         end; reflexivity.
Qed.

Lemma post_pass_hosts_up (output : string) (s : Stats) :
  zero_or_one (hosts_up s) ->
  zero_or_one (hosts_up (default_status output (implied_host s))).
Proof.
  unfold default_status, implied_host, zero_or_one. intros H.
  repeat match goal with
         | |- context [if ?b then _ else _] => destruct b
         end; cbn [hosts_up set_host set_status]; auto.
Qed.

Lemma post_pass_host_found (output : string) (s : Stats) :
  hosts_up s = 1 -> scan_status s = "host_found" ->
  hosts_up (default_status output (implied_host s)) = 1
  /\ scan_status (default_status output (implied_host s)) = "host_found".
Proof.
  intros H1 H2. unfold default_status, implied_host.
  rewrite H1. cbn [Z.eqb andb]. rewrite H2. cbn. auto.
Qed.

End Loop.

(** ** The claims about [_parse_statistics] *)

(** C8.  For the empty text the extractor returns the status "no_output",
    zero hosts up, and empty lists of open ports, services and
    vulnerabilities. *)
Theorem parse_empty_output :
  _parse_statistics EmptyString = mkStats 0 [] [] "no_output" [].
Proof. reflexivity. Qed.

(** C6.  For the report line, the header of the port table and the line
    "80/tcp open http", the extractor returns one host up, the single
    record of port 80 over tcp, open, with service http, and the status
    "host_found". *)
Theorem parse_report_with_one_port :
  _parse_statistics report_with_one_port
  = mkStats 1 [mkPortInfo "80" "tcp" "open" "http" None] [] "host_found" [].
Proof. vm_compute. reflexivity. Qed.

(** C9.  The list of services returned by the extractor is empty for every
    text. *)
Theorem parse_services_empty (output : string) :
  services (_parse_statistics output) = [].
Proof.
  unfold _parse_statistics. destruct (is_empty output); [reflexivity|].
  rewrite post_pass_services. unfold run_loop.
  apply (fold_left_preserves (fun st => services (stats st) = [])).
  - reflexivity.
  - intros st line H. rewrite loop_body_services. exact H.
Qed.

(** C10.  The number of hosts up returned by the extractor is 0 or 1 for
    every text. *)
Theorem parse_hosts_up_zero_or_one (output : string) :
  hosts_up (_parse_statistics output) = 0 \/ hosts_up (_parse_statistics output) = 1.
Proof.
  unfold _parse_statistics. destruct (is_empty output); [left; reflexivity|].
  apply post_pass_hosts_up. unfold run_loop.
  apply (fold_left_preserves (fun st => zero_or_one (hosts_up (stats st)))).
  - left. reflexivity.
  - intros st line. apply loop_body_hosts_up.
Qed.

(** The lookahead reads the lines after an occurrence that no equal line
    precedes. *)
Lemma scanned_lines_first_occurrence (lines : list string) (k : nat) :
  (k < length lines)%nat ->
  (forall j, (j < k)%nat -> nth j lines EmptyString <> nth k lines EmptyString) ->
  scanned_lines lines (nth k lines EmptyString) = following lines k.
Proof.
  intros Hk Hfirst. unfold scanned_lines.
  rewrite list_index_unique; [reflexivity | exact Hk | exact Hfirst].
Qed.

(** C5.  On the report of two hosts the port line at position 7 repeats
    the one at position 2: its lookahead scans the lines after position 2,
    not the line after position 7, and the record of the second host gets
    the version line of the first. *)
Theorem lookahead_of_repeated_line :
  nth 7 two_host_report EmptyString = nth 2 two_host_report EmptyString
  /\ scanned_lines two_host_report (nth 7 two_host_report EmptyString)
     = following two_host_report 2
  /\ following two_host_report 7 = ["| http-generator: product B version 2.0"]
  /\ scanned_lines two_host_report (nth 7 two_host_report EmptyString)
     <> following two_host_report 7
  /\ map version (open_ports (_parse_statistics (unlines two_host_report)))
     = [Some "| http-generator: product A version 1.0";
        Some "| http-generator: product A version 1.0"]
  /\ version (fold_left refine_port (following two_host_report 7)
                (new_port_info (split_ws (nth 7 two_host_report EmptyString))))
     = Some "| http-generator: product B version 2.0".
Proof.
  repeat split; try (vm_compute; reflexivity).
  vm_compute. discriminate.
Qed.

(** A line with "0 hosts up" holds "up" and "host", so the test of rule 2
    accepts it and the branch of rule 3 for that phrase is never taken. *)
Lemma zero_hosts_up_is_rule_up (line_lower : string) :
  contains "0 hosts up" line_lower = true -> rule_up line_lower = true.
Proof.
  intros H. unfold rule_up.
  rewrite (contains_trans "up" "0 hosts up" line_lower eq_refl H).
  rewrite (contains_trans "host" "0 hosts up" line_lower eq_refl H).
  apply orb_true_r.
Qed.

(** C1.  For the line that reports "0 hosts up" and nothing else the
    extractor returns one host up and the status "host_up", not zero hosts
    and "host_down": rule 2 takes the line before rule 3 is tried. *)
Theorem parse_zero_hosts_up :
  contains "0 hosts up" (lower nmap_done_no_hosts) = true
  /\ rule_report (lower nmap_done_no_hosts) = false
  /\ _parse_statistics nmap_done_no_hosts = mkStats 1 [] [] "host_up" [].
Proof. repeat split; vm_compute; reflexivity. Qed.

(** *** Vulnerability lines (C2) *)

(** A line that holds one of the keywords is not blank. *)
Lemma keyword_line_not_blank (line : string) :
  any_in vuln_keywords (lower line) = true -> is_empty (strip line) = false.
Proof.
  intros H. rewrite strip_empty.
  unfold any_in, vuln_keywords in H. cbn [existsb] in H.
  repeat (apply orb_true_iff in H as [H|H]);
    try discriminate;
    (eapply contains_lower_not_blank; [|exact H]; reflexivity).
Qed.

(** The list of vulnerabilities is the list of the recorded lines, each
    stripped, in the order of the text. *)
Lemma parse_vulnerabilities (output : string) :
  vulnerabilities (_parse_statistics output)
  = map strip (List.filter captured (split_char "010" output)).
Proof.
  unfold _parse_statistics. destruct output as [|c output]; [reflexivity|].
  cbn [is_empty]. rewrite post_pass_vulnerabilities.
  unfold run_loop. rewrite run_vulnerabilities. reflexivity.
Qed.

(** C2, as stated, fails twice.  A line with a keyword that also holds
    "port", "state" and "service" is taken for a table header and skipped
    before step 5; a line with white space around it is recorded without
    that white space, not verbatim. *)
Lemma vulnerability_capture_counterexample :
  (In script_state_line (split_char "010" script_state_line)
   /\ script_state_line <> EmptyString
   /\ any_in vuln_keywords (lower script_state_line) = true
   /\ vulnerabilities (_parse_statistics script_state_line) = [])
  /\ (In indented_finding (split_char "010" indented_finding)
      /\ indented_finding <> EmptyString
      /\ any_in vuln_keywords (lower indented_finding) = true
      /\ vulnerabilities (_parse_statistics indented_finding) = ["CVE-2021-44228"]
      /\ ~ In indented_finding (vulnerabilities (_parse_statistics indented_finding))).
Proof.
  split.
  - repeat split; try (vm_compute; reflexivity).
    + left. reflexivity.
    + discriminate.
  - repeat split; try (vm_compute; reflexivity).
    + left. reflexivity.
    + discriminate.
    + vm_compute. intros [H|[]]. discriminate H.
Qed.

(** C2, amended.  Every line of the text that holds one of the keywords
    (in any case) and is not taken for a table header is recorded in the
    list of vulnerabilities, stripped of the white space around it,
    whatever the port-section mode is. *)
Theorem vulnerability_lines_captured (output line : string) :
  In line (split_char "010" output) ->
  any_in vuln_keywords (lower line) = true ->
  is_port_header (lower line) = false ->
  In (strip line) (vulnerabilities (_parse_statistics output)).
Proof.
  intros Hin Hkey Hhead.
  rewrite parse_vulnerabilities. apply in_map, filter_In.
  split; [exact Hin|].
  unfold captured.
  rewrite Hhead, Hkey, (keyword_line_not_blank line Hkey). reflexivity.
Qed.

Lemma vulnerability_lines_captured_witness :
  In "|   CVE-2014-3566 (POODLE)"
     (vulnerabilities
        (_parse_statistics
           (unlines ["PORT    STATE SERVICE";
                     "443/tcp open  https";
                     "| ssl-poodle:";
                     "|   CVE-2014-3566 (POODLE)"]))).
Proof.
  apply (vulnerability_lines_captured
           (unlines ["PORT    STATE SERVICE";
                     "443/tcp open  https";
                     "| ssl-poodle:";
                     "|   CVE-2014-3566 (POODLE)"])
           "|   CVE-2014-3566 (POODLE)").
  - vm_compute. right. right. right. left. reflexivity.
  - vm_compute. reflexivity.
  - vm_compute. reflexivity.
Defined.

(** *** Report lines (C3) *)

Lemma report_kept (lines post : list string) (st : LoopState) :
  forallb keeps_report post = true ->
  hosts_up (stats st) = 1 -> scan_status (stats st) = "host_found" ->
  hosts_up (stats (fold_left (loop_body lines) post st)) = 1
  /\ scan_status (stats (fold_left (loop_body lines) post st)) = "host_found".
Proof.
  revert st. induction post as [|l post IH]; intros st Hpost H1 H2; [auto|].
  cbn [forallb] in Hpost. apply andb_true_iff in Hpost as [Hl Hpost].
  cbn [fold_left]. unfold keeps_report in Hl.
  apply orb_true_iff in Hl as [Hl|Hl].
  - destruct (loop_body_report lines st l Hl). apply IH; assumption.
  - destruct (loop_body_no_host_rule lines st l Hl) as [E1 E2].
    apply IH; [assumption | rewrite E1; exact H1 | rewrite E2; exact H2].
Qed.

(** C3, as stated, fails: a line with "scan report for" that lacks the
    word "nmap" before it matches no rule of step 1; the loop leaves zero
    hosts and the status "unknown", and the returned status is
    "completed". *)
Lemma report_line_counterexample :
  contains "scan report for" (lower bare_report_line) = true
  /\ stats (loop_body [bare_report_line] initial_state bare_report_line)
     = mkStats 0 [] [] "unknown" []
  /\ _parse_statistics bare_report_line = mkStats 0 [] [] "completed" [].
Proof. repeat split; vm_compute; reflexivity. Qed.

(** C3, amended.  A line that holds "nmap scan report for" (in any case)
    sets the number of hosts up to 1 and the status to "host_found" when
    the loop reaches it; the extractor returns these two values when every
    later line is a report line too or matches no rule of step 1. *)
Theorem report_line_sets_host_found
        (output : string) (pre post : list string) (line : string) :
  split_char "010" output = (pre ++ line :: post)%list ->
  rule_report (lower line) = true ->
  (let st := fold_left (loop_body (split_char "010" output))
                       (pre ++ [line])%list initial_state in
   hosts_up (stats st) = 1 /\ scan_status (stats st) = "host_found")
  /\ (forallb keeps_report post = true ->
      hosts_up (_parse_statistics output) = 1
      /\ scan_status (_parse_statistics output) = "host_found").
Proof.
  intros Hsplit Hline.
  assert (Hstep :
            let st := fold_left (loop_body (split_char "010" output))
                                (pre ++ [line])%list initial_state in
            hosts_up (stats st) = 1 /\ scan_status (stats st) = "host_found").
  { cbn zeta. rewrite fold_left_app. cbn [fold_left].
    apply loop_body_report, Hline. }
  split; [exact Hstep|].
  intros Hpost. unfold _parse_statistics.
  destruct output as [|c output].
  - destruct pre as [|p [|q pre]]; cbn in Hsplit; try discriminate.
    injection Hsplit as <- _. discriminate Hline.
  - cbn [is_empty]. cbn zeta in Hstep. destruct Hstep as [H1 H2].
    unfold run_loop.
    replace (fold_left (loop_body (split_char "010" (String c output)))
                       (split_char "010" (String c output)) initial_state)
      with (fold_left (loop_body (split_char "010" (String c output))) post
              (fold_left (loop_body (split_char "010" (String c output)))
                         (pre ++ [line])%list initial_state)).
    + destruct (report_kept (split_char "010" (String c output)) post _
                            Hpost H1 H2) as [E1 E2].
      apply post_pass_host_found; assumption.
    + rewrite <- fold_left_app, <- app_assoc. cbn [app].
      rewrite <- Hsplit. reflexivity.
Qed.

Lemma report_line_sets_host_found_witness :
  hosts_up (_parse_statistics
              (unlines ["Starting Nmap 7.94"; "Nmap scan report for 10.0.0.5";
                        "Nmap done: 1 IP address"])) = 1
  /\ scan_status (_parse_statistics
                    (unlines ["Starting Nmap 7.94"; "Nmap scan report for 10.0.0.5";
                              "Nmap done: 1 IP address"])) = "host_found".
Proof.
  apply (report_line_sets_host_found
           (unlines ["Starting Nmap 7.94"; "Nmap scan report for 10.0.0.5";
                     "Nmap done: 1 IP address"])
           ["Starting Nmap 7.94"] ["Nmap done: 1 IP address"]
           "Nmap scan report for 10.0.0.5").
  - vm_compute. reflexivity.
  - vm_compute. reflexivity.
  - vm_compute. reflexivity.
Defined.


(** ** The claims about [scan] *)

Lemma scan_unknown_profile (env : Env) (target profile : string) :
  SCAN_PROFILES !! profile = None ->
  scan env target profile = ([], Raise (ValueError invalid_profile_message)).
Proof. intros H. unfold scan. rewrite H. reflexivity. Qed.

Lemma scan_known_profile (env : Env) (target profile : string) (info : Profile) :
  SCAN_PROFILES !! profile = Some info ->
  forall msg, snd (scan env target profile) <> Raise (ValueError msg).
Proof.
  intros H msg. unfold scan. rewrite H.
  destruct (run env (command_line info target) (timeout_of profile));
    repeat match goal with
           | |- context [if ?b then _ else _] => destruct b
           end; discriminate.
Qed.

(** C7.  For a profile name that is not in the table, [scan] raises the
    invalid-profile error with no effect before it, so no subprocess is
    spawned; for a name in the table it never raises that error. *)
Theorem scan_invalid_profile (env : Env) (target profile : string) :
  (SCAN_PROFILES !! profile = None ->
   scan env target profile = ([], Raise (ValueError invalid_profile_message)))
  /\ (is_Some (SCAN_PROFILES !! profile) ->
      forall msg, snd (scan env target profile) <> Raise (ValueError msg)).
Proof.
  split.
  - apply scan_unknown_profile.
  - intros [info H]. eapply scan_known_profile, H.
Qed.

Lemma scan_invalid_profile_witness :
  scan timing_out "10.0.0.5" "stealth"
  = ([], Raise (ValueError invalid_profile_message))
  /\ forall msg, snd (scan timing_out "10.0.0.5" "quick") <> Raise (ValueError msg).
Proof.
  split.
  - apply (proj1 (scan_invalid_profile timing_out "10.0.0.5" "stealth")).
    vm_compute. reflexivity.
  - apply (proj2 (scan_invalid_profile timing_out "10.0.0.5" "quick")).
    vm_compute. eexists. reflexivity.
Defined.

(** C4, as stated, fails on the time-out path: the partial result has
    neither the raw output nor the raw errors, and its statistics lack
    the services and the vulnerabilities. *)
Lemma scan_timeout_counterexample :
  snd (scan timing_out "10.0.0.5" "quick")
  = Return (partial_result timing_out "10.0.0.5" "quick" "nmap -sS -T4 -F 10.0.0.5")
  /\ has_key "raw_output"
       (partial_result timing_out "10.0.0.5" "quick" "nmap -sS -T4 -F 10.0.0.5")
     = false
  /\ has_key "raw_errors"
       (partial_result timing_out "10.0.0.5" "quick" "nmap -sS -T4 -F 10.0.0.5")
     = false
  /\ statistics_keys
       (partial_result timing_out "10.0.0.5" "quick" "nmap -sS -T4 -F 10.0.0.5")
     = ["hosts_up"; "open_ports"; "scan_status"]
  /\ complete_result
       (partial_result timing_out "10.0.0.5" "quick" "nmap -sS -T4 -F 10.0.0.5")
     = false.
Proof. repeat split; vm_compute; reflexivity. Qed.

Lemma scan_result_complete (env : Env) (target profile cmd : string)
      (returncode : Z) (stdout stderr : string) :
  complete_result (scan_result env target profile cmd returncode stdout stderr)
  = true.
Proof. vm_compute. reflexivity. Qed.

Lemma partial_result_fields (env : Env) (target profile cmd : string) :
  has_key "raw_output" (partial_result env target profile cmd) = false
  /\ has_key "raw_errors" (partial_result env target profile cmd) = false
  /\ statistics_keys (partial_result env target profile cmd)
     = ["hosts_up"; "open_ports"; "scan_status"].
Proof. repeat split; vm_compute; reflexivity. Qed.

(** C4, amended.  For a profile of the table, what [scan] returns is
    fixed by what the subprocess and the report writer do.  When the
    subprocess completes, the result built from it holds the raw output,
    the raw errors and the statistics with all five fields; [scan]
    returns that result when the reports were written, and the empty
    dict when the writer raised.  On a time-out the partial result has no
    raw output, no raw errors, and statistics with the number of hosts
    up, the open ports and the status only; [scan] returns it when the
    reports were written, and otherwise the exception of the writer
    leaves [scan].  After another failure of the subprocess call [scan]
    returns the empty dict.  The empty dict has none of the fields. *)
Theorem scan_result_fields (env : Env) (target profile : string)
        (info : Profile) :
  SCAN_PROFILES !! profile = Some info ->
  match run env (command_line info target) (timeout_of profile) with
  | Completed returncode stdout stderr =>
      let r := scan_result env target profile (command_line info target)
                           returncode stdout stderr in
      complete_result r = true
      /\ snd (scan env target profile)
         = Return (if reports_written env r profile then r else ∅)
  | TimeoutExpired =>
      let r := partial_result env target profile (command_line info target) in
      has_key "raw_output" r = false
      /\ has_key "raw_errors" r = false
      /\ statistics_keys r = ["hosts_up"; "open_ports"; "scan_status"]
      /\ snd (scan env target profile)
         = (if reports_written env r profile then Return r else Raise OSError)
  | RunFailed =>
      snd (scan env target profile) = Return ∅
  end
  /\ has_key "raw_output" (∅ : gmap string value) = false
  /\ has_key "raw_errors" (∅ : gmap string value) = false
  /\ statistics_keys ∅ = [].
Proof.
  intros Hprofile. split; [|repeat split].
  unfold scan. rewrite Hprofile. cbv zeta.
  destruct (run env (command_line info target) (timeout_of profile))
    as [returncode stdout stderr| |].
  - split; [apply scan_result_complete|].
    destruct (reports_written env _ profile); reflexivity.
  - destruct (partial_result_fields env target profile
                                    (command_line info target))
      as (H1 & H2 & H3).
    repeat split; try assumption.
    destruct (reports_written env _ profile); reflexivity.
  - reflexivity.
Qed.

Lemma scan_result_fields_witness :
  (complete_result quick_result = true
   /\ snd (scan (answering report_with_one_port) "10.0.0.5" "quick")
      = Return quick_result)
  /\ has_key "raw_output" (∅ : gmap string value) = false
  /\ has_key "raw_errors" (∅ : gmap string value) = false
  /\ statistics_keys ∅ = [].
Proof.
  apply (scan_result_fields
           (answering report_with_one_port) "10.0.0.5" "quick"
           (mkProfile "-sS -T4 -F" "Quick TCP port scan" "Medium")).
  vm_compute. reflexivity.
Defined.

(** ** Further properties of [_parse_statistics] *)

Section Extractor.

Lemma loop_body_coupling (lines : list string) (st : LoopState) (line : string) :
  loop_coupling (stats st) -> loop_coupling (stats (loop_body lines st line)).
Proof.
  unfold loop_coupling. intros H. body_cases; tauto.
Qed.

Lemma run_loop_coupling (lines : list string) :
  loop_coupling (stats (run_loop lines)).
Proof.
  unfold run_loop.
  apply (fold_left_preserves (fun st => loop_coupling (stats st))).
  - left. split; [reflexivity | left; reflexivity].
  - intros st line. apply loop_body_coupling.
Qed.

Lemma post_pass_open_ports (output : string) (s : Stats) :
  open_ports (default_status output (implied_host s)) = open_ports s.
Proof.
  unfold default_status, implied_host.
  repeat match goal with
         | |- context [if ?b then _ else _] => destruct b
         end; reflexivity.
Qed.

(** The status and the number of hosts that the two steps after the loop
    return, from a state of the loop. *)
Lemma post_pass_coupling (output : string) (s : Stats) :
  loop_coupling s ->
  (hosts_up (default_status output (implied_host s)) = 1
   /\ In (scan_status (default_status output (implied_host s)))
         ["host_found"; "host_up"; "implied_host_up"])
  \/ (hosts_up (default_status output (implied_host s)) = 0
      /\ open_ports s = []
      /\ In (scan_status (default_status output (implied_host s)))
            ["unknown"; "host_down"; "completed"; "completed_no_hosts"]).
Proof.
  destruct s as [h ps sv stt vs]. unfold loop_coupling. cbn.
  unfold default_status, implied_host. cbn [hosts_up open_ports scan_status].
  intros [[-> [-> | ->]] | [-> [-> | ->]]]; cbn [Z.eqb andb];
    destruct ps; cbn -[contains In];
    repeat match goal with
           | |- context [if ?b then _ else _] => destruct b
           end; cbn; tauto.
Qed.

End Extractor.

(** X1.  The status tells the number of hosts: the extractor returns one
    host up with "host_found", "host_up" or "implied_host_up", and zero
    hosts with "unknown", "host_down", "completed", "completed_no_hosts"
    or "no_output"; it returns no other status, so never "timeout". *)
Theorem parse_status_and_hosts (output : string) :
  (hosts_up (_parse_statistics output) = 1
   /\ In (scan_status (_parse_statistics output))
         ["host_found"; "host_up"; "implied_host_up"])
  \/ (hosts_up (_parse_statistics output) = 0
      /\ In (scan_status (_parse_statistics output))
            ["unknown"; "host_down"; "completed"; "completed_no_hosts";
             "no_output"]).
Proof.
  unfold _parse_statistics. destruct (is_empty output).
  - right. cbn. tauto.
  - destruct (post_pass_coupling output _ (run_loop_coupling (split_char "010" output)))
      as [H | (H1 & _ & H2)]; [left; exact H | right].
    split; [exact H1|]. cbn in H2 |- *. tauto.
Qed.

(** X2.  A result that lists an open port reports one host up: the
    fallback after the loop sees to it when no line said so. *)
Theorem parse_open_ports_imply_host_up (output : string) :
  open_ports (_parse_statistics output) <> [] ->
  hosts_up (_parse_statistics output) = 1
  /\ scan_status (_parse_statistics output) <> "host_down".
Proof.
  unfold _parse_statistics. destruct (is_empty output); [intros H; now elim H|].
  rewrite post_pass_open_ports. intros Hports.
  destruct (post_pass_coupling output _ (run_loop_coupling (split_char "010" output)))
    as [[H1 H2] | (_ & H & _)]; [|contradiction].
  split; [exact H1|]. intros E. rewrite E in H2. cbn in H2.
  intuition discriminate.
Qed.

Lemma parse_open_ports_imply_host_up_witness :
  hosts_up (_parse_statistics ports_without_host) = 1
  /\ scan_status (_parse_statistics ports_without_host) <> "host_down".
Proof.
  apply (parse_open_ports_imply_host_up ports_without_host).
  vm_compute. discriminate.
Defined.

(** X3.  The status "no_output" is returned for the empty text and for no
    other text. *)
Theorem parse_no_output_iff_empty (output : string) :
  scan_status (_parse_statistics output) = "no_output" <-> output = EmptyString.
Proof.
  split.
  - unfold _parse_statistics. destruct output as [|c output]; [reflexivity|].
    cbn [is_empty]. intros E.
    destruct (post_pass_coupling (String c output) _
                (run_loop_coupling (split_char "010" (String c output))))
      as [[_ H] | (_ & _ & H)]; rewrite E in H; cbn in H;
      intuition discriminate.
  - intros ->. reflexivity.
Qed.

Section PortRecords.

Lemma host_status_section (line line_lower : string) (st : LoopState) :
  in_port_section (host_status line line_lower st) = in_port_section st.
Proof.
  unfold host_status.
  repeat match goal with
         | |- context [if ?b then _ else _] => destruct b
         end; reflexivity.
Qed.

Lemma host_status_open_ports (line line_lower : string) (st : LoopState) :
  open_ports (stats (host_status line line_lower st)) = open_ports (stats st).
Proof.
  unfold host_status.
  repeat match goal with
         | |- context [if ?b then _ else _] => destruct b
         end; reflexivity.
Qed.

(** What one turn of the loop adds to the list of open ports. *)
Lemma loop_body_open_ports (lines : list string) (st : LoopState) (line : string) :
  open_ports (stats (loop_body lines st line))
  = (open_ports (stats st)
     ++ (if recorded (in_port_section st) line
         then [lookahead lines line (new_port_info (split_ws line))]
         else []))%list.
Proof.
  unfold loop_body, recorded.
  destruct (is_port_header (lower line)); cbn [negb andb stats].
  - rewrite app_nil_r. apply host_status_open_ports.
  - unfold vuln_line, end_port_section, port_line.
    rewrite host_status_section.
    destruct (port_candidate (in_port_section st) line); cbn [andb];
      [destruct (open_port_parts (split_ws line))|];
      repeat (cbn [stats current_host in_port_section];
              match goal with
              | |- context [if ?b then _ else _] => destruct b
              end);
      cbn [stats append_port append_vulnerability open_ports];
      rewrite ?host_status_open_ports, ?app_nil_r; reflexivity.
Qed.

(** Without the header of a port table the loop stays out of the port
    section and records nothing. *)
Lemma loop_body_no_header (lines : list string) (st : LoopState) (line : string) :
  is_port_header (lower line) = false ->
  in_port_section st = false ->
  in_port_section (loop_body lines st line) = false
  /\ open_ports (stats (loop_body lines st line)) = open_ports (stats st).
Proof.
  intros Hhead Hsec. split.
  - unfold loop_body. rewrite Hhead.
    unfold vuln_line, end_port_section, port_line.
    rewrite host_status_section, Hsec. unfold port_candidate. cbn [andb].
    repeat (cbn [stats current_host in_port_section];
            match goal with
            | |- context [if ?b then _ else _] => destruct b
            end); cbn;
      first [reflexivity | rewrite ?host_status_section; exact Hsec].
  - rewrite loop_body_open_ports. unfold recorded, port_candidate.
    rewrite Hsec, andb_false_r. cbn [andb]. apply app_nil_r.
Qed.

Lemma refine_port_keeps (info : PortInfo) (raw_next : string) :
  port (refine_port info raw_next) = port info
  /\ protocol (refine_port info raw_next) = protocol info
  /\ state (refine_port info raw_next) = state info.
Proof.
  unfold refine_port.
  repeat match goal with
         | |- context [if ?b then _ else _] => destruct b
         end; cbn; auto.
Qed.

(** The lookahead changes the service and the version only. *)
Lemma lookahead_keeps (lines : list string) (line : string) (info : PortInfo) :
  port (lookahead lines line info) = port info
  /\ protocol (lookahead lines line info) = protocol info
  /\ state (lookahead lines line info) = state info.
Proof.
  unfold lookahead. generalize (scanned_lines lines line) as l.
  intros l. revert info. induction l as [|x l IH]; intros info; [cbn; auto|].
  cbn [fold_left]. destruct (IH (refine_port info x)) as (H1 & H2 & H3).
  destruct (refine_port_keeps info x) as (K1 & K2 & K3).
  rewrite H1, H2, H3. auto.
Qed.

Lemma recorded_record_of (lines : list string) (in_section : bool) (line : string) :
  recorded in_section line = true ->
  record_of line (lookahead lines line (new_port_info (split_ws line))).
Proof.
  unfold recorded, port_candidate. intros H.
  repeat match goal with
         | H : _ && _ = true |- _ => apply andb_true_iff in H as [? ?]
         end.
  destruct (lookahead_keeps lines line (new_port_info (split_ws line)))
    as (K1 & K2 & K3).
  unfold record_of. repeat split; try assumption;
    apply negb_true_iff; assumption.
Qed.

Lemma run_open_ports (lines ls : list string) (st : LoopState) :
  (forall x, In x ls -> In x lines) ->
  Forall (fun p => exists line, In line lines /\ record_of line p)
         (open_ports (stats st)) ->
  Forall (fun p => exists line, In line lines /\ record_of line p)
         (open_ports (stats (fold_left (loop_body lines) ls st))).
Proof.
  revert st. induction ls as [|l ls IH]; intros st Hin Hst; [exact Hst|].
  cbn [fold_left]. apply IH; [intros x Hx; apply Hin; right; exact Hx|].
  rewrite loop_body_open_ports. apply Forall_app. split; [exact Hst|].
  destruct (recorded (in_port_section st) l) eqn:E; [|constructor].
  constructor; [|constructor].
  exists l. split; [apply Hin; left; reflexivity|].
  eapply recorded_record_of, E.
Qed.

Lemma run_no_header (lines ls : list string) (st : LoopState) :
  forallb (fun l => negb (is_port_header (lower l))) ls = true ->
  in_port_section st = false ->
  open_ports (stats (fold_left (loop_body lines) ls st)) = open_ports (stats st).
Proof.
  revert st. induction ls as [|l ls IH]; intros st Hls Hsec; [reflexivity|].
  cbn [forallb] in Hls. apply andb_true_iff in Hls as [Hl Hls].
  apply negb_true_iff in Hl.
  destruct (loop_body_no_header lines st l Hl Hsec) as [H1 H2].
  cbn [fold_left]. rewrite IH; assumption.
Qed.

(** The first piece of a split holds no separator. *)
Lemma split_char_head (sep : ascii) (s : string) :
  contains (String sep EmptyString) (nth 0 (split_char sep s) EmptyString) = false.
Proof.
  induction s as [|c s IH]; [reflexivity|].
  cbn [split_char]. destruct (Ascii.eqb c sep) eqn:E; [reflexivity|].
  apply Ascii.eqb_neq in E.
  assert (Hpre : forall h, String.prefix (String sep EmptyString) (String c h) = false).
  { intros h. cbn. destruct (Ascii.ascii_dec sep c); [congruence | reflexivity]. }
  destruct (split_char sep s) as [|h t]; cbn [nth] in *.
  - change (String.prefix (String sep EmptyString) (String c EmptyString)
            || contains (String sep EmptyString) EmptyString = false).
    rewrite Hpre. reflexivity.
  - change (String.prefix (String sep EmptyString) (String c h)
            || contains (String sep EmptyString) h = false).
    rewrite Hpre, IH. reflexivity.
Qed.

(** Only "/" is "/" in lower case. *)
Lemma lower_char_slash (c : ascii) : lower_char c = "/"%char -> c = "/"%char.
Proof.
  destruct c as [[] [] [] [] [] [] [] []]; intros H;
    first [reflexivity | vm_compute in H; discriminate H].
Qed.

Lemma slash_of_lower (w : string) :
  contains "/" (lower w) = true -> contains "/" w = true.
Proof.
  induction w as [|c w IH]; intros H; [exact H|].
  change (lower (String c w)) with (String (lower_char c) (lower w)) in H.
  apply contains_cons_inv in H as [H|H].
  - apply prefix_cons_inv in H as (s' & E & _). injection E as E _.
    apply lower_char_slash in E. subst c.
    apply contains_here, prefix_cons, prefix_nil.
  - apply contains_later, IH, H.
Qed.

(** The first word of an open-port line holds a "/". *)
Lemma open_port_parts_slash (parts : list string) :
  open_port_parts parts = true ->
  contains "/" (nth 0 parts EmptyString) = true.
Proof.
  unfold open_port_parts. intros H.
  apply andb_true_iff in H as [H _]. apply andb_true_iff in H as [_ H].
  apply slash_of_lower. apply orb_true_iff in H as [H|H];
    (eapply contains_trans; [|exact H]); reflexivity.
Qed.

End PortRecords.

(** X4.  A text with no header of a port table (no line that holds
    "port", "state" and "service") yields no open port, whatever port
    lines it holds. *)
Theorem parse_no_header_no_ports (output : string) :
  forallb (fun l => negb (is_port_header (lower l))) (split_char "010" output)
  = true ->
  open_ports (_parse_statistics output) = [].
Proof.
  intros H. unfold _parse_statistics. destruct (is_empty output); [reflexivity|].
  rewrite post_pass_open_ports. unfold run_loop.
  rewrite run_no_header; [reflexivity | exact H | reflexivity].
Qed.

Lemma parse_no_header_no_ports_witness :
  open_ports (_parse_statistics
                (unlines ["Nmap scan report for 10.0.0.5"; "80/tcp open http"]))
  = [].
Proof.
  apply (parse_no_header_no_ports
           (unlines ["Nmap scan report for 10.0.0.5"; "80/tcp open http"])).
  vm_compute. reflexivity.
Defined.

(** X5.  Every open-port record comes from a line of the text that
    starts neither with "Nmap" nor with "|": its port is the part of the
    first word before the first "/" and holds no "/", its protocol is the
    part of the first word after the first "/" (up to the next one), its
    state is the second word, and that state is "open" up to case.  So
    the lookahead leaves port, protocol and state as the line gives
    them. *)
Theorem parse_port_records (output : string) (p : PortInfo) :
  In p (open_ports (_parse_statistics output)) ->
  lower (state p) = "open"
  /\ contains "/" (port p) = false
  /\ exists line,
      In line (split_char "010" output)
      /\ startswith "Nmap" line = false
      /\ startswith "|" line = false
      /\ port p = nth 0 (split_char "/" (nth 0 (split_ws line) EmptyString))
                      EmptyString
      /\ protocol p
         = nth 1 (split_char "/" (nth 0 (split_ws line) EmptyString))
               EmptyString
      /\ state p = nth 1 (split_ws line) EmptyString.
Proof.
  unfold _parse_statistics. destruct (is_empty output); [intros []|].
  rewrite post_pass_open_ports. unfold run_loop. intros Hin.
  pose proof (run_open_ports (split_char "010" output) (split_char "010" output)
                initial_state (fun x Hx => Hx) (List.Forall_nil _)) as Hall.
  rewrite List.Forall_forall in Hall.
  destruct (Hall p Hin)
    as (line & Hline & H1 & H2 & Hparts & Hport & Hproto & Hstate).
  cbn [new_port_info port protocol state] in Hport, Hproto, Hstate.
  rewrite (open_port_parts_slash _ Hparts) in Hproto.
  repeat split.
  - rewrite Hstate. unfold open_port_parts in Hparts.
    apply andb_true_iff in Hparts as [_ Hopen].
    apply String.eqb_eq in Hopen. exact Hopen.
  - rewrite Hport. apply split_char_head.
  - exists line. repeat split; assumption.
Qed.

Lemma parse_port_records_witness :
  lower (state (mkPortInfo "80" "tcp" "open" "http" None)) = "open"
  /\ contains "/" (port (mkPortInfo "80" "tcp" "open" "http" None)) = false
  /\ exists line,
      In line (split_char "010" report_with_one_port)
      /\ startswith "Nmap" line = false
      /\ startswith "|" line = false
      /\ port (mkPortInfo "80" "tcp" "open" "http" None)
         = nth 0 (split_char "/" (nth 0 (split_ws line) EmptyString)) EmptyString
      /\ protocol (mkPortInfo "80" "tcp" "open" "http" None)
         = nth 1 (split_char "/" (nth 0 (split_ws line) EmptyString)) EmptyString
      /\ state (mkPortInfo "80" "tcp" "open" "http" None)
         = nth 1 (split_ws line) EmptyString.
Proof.
  apply (parse_port_records report_with_one_port
                            (mkPortInfo "80" "tcp" "open" "http" None)).
  vm_compute. left. reflexivity.
Defined.

(** X6.  Every entry of the list of vulnerabilities is a line of the text
    with the white space around it removed; that line holds one of the
    keywords (in any case) and is not taken for a table header, and the
    entry is not empty. *)
Theorem parse_vulnerability_entries (output v : string) :
  In v (vulnerabilities (_parse_statistics output)) ->
  v <> EmptyString
  /\ exists line,
      In line (split_char "010" output)
      /\ v = strip line
      /\ any_in vuln_keywords (lower line) = true
      /\ is_port_header (lower line) = false.
Proof.
  rewrite parse_vulnerabilities. intros H.
  apply in_map_iff in H as (line & <- & H).
  apply filter_In in H as [Hin Hcap]. unfold captured in Hcap.
  apply andb_true_iff in Hcap as [Hcap Hblank].
  apply andb_true_iff in Hcap as [Hhead Hkey].
  apply negb_true_iff in Hhead, Hblank.
  split.
  - intros E. rewrite E in Hblank. discriminate.
  - exists line. auto.
Qed.

Lemma parse_vulnerability_entries_witness :
  "CVE-2021-44228" <> EmptyString
  /\ exists line,
      In line (split_char "010" indented_finding)
      /\ "CVE-2021-44228" = strip line
      /\ any_in vuln_keywords (lower line) = true
      /\ is_port_header (lower line) = false.
Proof.
  apply (parse_vulnerability_entries indented_finding "CVE-2021-44228").
  vm_compute. left. reflexivity.
Defined.

Section HostDown.

Lemma loop_body_host_down (lines : list string) (st : LoopState) (line : string) :
  scan_status (stats (loop_body lines st line)) = "host_down" ->
  scan_status (stats st) = "host_down"
  \/ (rule_down (lower line) = true /\ rule_up (lower line) = false).
Proof.
  body_cases; intros H; try discriminate H; auto.
Qed.

Lemma rule_down_not_up (line_lower : string) :
  rule_down line_lower = true -> rule_up line_lower = false ->
  contains "host seems down" line_lower = true.
Proof.
  unfold rule_down. intros Hdown Hup.
  apply orb_true_iff in Hdown as [H|H]; [|exact H].
  rewrite (zero_hosts_up_is_rule_up line_lower H) in Hup. discriminate.
Qed.

Lemma run_host_down (lines ls : list string) (st : LoopState) :
  scan_status (stats (fold_left (loop_body lines) ls st)) = "host_down" ->
  scan_status (stats st) = "host_down"
  \/ exists line,
      In line ls
      /\ contains "host seems down" (lower line) = true
      /\ rule_up (lower line) = false.
Proof.
  revert st. induction ls as [|l ls IH]; intros st H; [left; exact H|].
  cbn [fold_left] in H. destruct (IH _ H) as [H1 | (line & Hin & Hl)].
  - destruct (loop_body_host_down lines st l H1) as [H2 | [Hd Hu]];
      [left; exact H2 | right].
    exists l. split; [left; reflexivity|].
    split; [apply rule_down_not_up; assumption | exact Hu].
  - right. exists line. split; [right; exact Hin | exact Hl].
Qed.

Lemma post_pass_host_down (output : string) (s : Stats) :
  scan_status (default_status output (implied_host s)) = "host_down" ->
  scan_status s = "host_down".
Proof.
  unfold default_status, implied_host.
  repeat match goal with
         | |- context [if ?b then _ else _] => destruct b eqn:?
         end; cbn; intros H; try discriminate H; try exact H.
  all: match goal with
       | E : String.eqb _ "unknown" = true |- _ =>
           apply String.eqb_eq in E; cbn in E; congruence
       end.
Qed.

End HostDown.

(** X7.  The status "host_down" is returned only for a text with a line
    that holds "host seems down" and fails the test of rule 2 (it lacks
    "up" or lacks "host", and lacks "host is up"): the phrase
    "0 hosts up" alone never yields that status. *)
Theorem parse_host_down_line (output : string) :
  scan_status (_parse_statistics output) = "host_down" ->
  exists line,
    In line (split_char "010" output)
    /\ contains "host seems down" (lower line) = true
    /\ rule_up (lower line) = false.
Proof.
  unfold _parse_statistics. destruct (is_empty output); [discriminate|].
  intros H. apply post_pass_host_down in H. unfold run_loop in H.
  destruct (run_host_down _ _ _ H) as [H0 | H1]; [discriminate H0 | exact H1].
Qed.

Lemma parse_host_down_line_witness :
  exists line,
    In line (split_char "010" host_seems_down)
    /\ contains "host seems down" (lower line) = true
    /\ rule_up (lower line) = false.
Proof.
  apply (parse_host_down_line host_seems_down).
  vm_compute. reflexivity.
Defined.

Section Fallback.

Lemma run_no_host_rule (lines ls : list string) (st : LoopState) :
  forallb no_host_rule ls = true ->
  hosts_up (stats (fold_left (loop_body lines) ls st)) = hosts_up (stats st)
  /\ scan_status (stats (fold_left (loop_body lines) ls st))
     = scan_status (stats st).
Proof.
  revert st. induction ls as [|l ls IH]; intros st H; [auto|].
  cbn [forallb] in H. apply andb_true_iff in H as [Hl Hls].
  cbn [fold_left]. destruct (IH (loop_body lines st l) Hls) as [E1 E2].
  destruct (loop_body_no_host_rule lines st l Hl) as [F1 F2].
  rewrite E1, E2, F1, F2. auto.
Qed.

End Fallback.

(** X8.  When no line of the text matches a rule of step 1 and the
    result lists an open port, the fallback reports one host up with the
    status "implied_host_up". *)
Theorem parse_implied_host_up (output : string) :
  forallb no_host_rule (split_char "010" output) = true ->
  open_ports (_parse_statistics output) <> [] ->
  hosts_up (_parse_statistics output) = 1
  /\ scan_status (_parse_statistics output) = "implied_host_up".
Proof.
  intros Hquiet. unfold _parse_statistics.
  destruct (is_empty output); [intros H; now elim H|].
  rewrite post_pass_open_ports. unfold run_loop.
  destruct (run_no_host_rule (split_char "010" output) _ initial_state Hquiet)
    as [E1 E2].
  destruct (stats (fold_left (loop_body (split_char "010" output))
                             (split_char "010" output) initial_state))
    as [h ps sv stt vs].
  cbn in E1, E2. subst h stt. cbn [open_ports]. intros Hports.
  destruct ps as [|p ps]; [now elim Hports|].
  cbn. auto.
Qed.

Lemma parse_implied_host_up_witness :
  hosts_up (_parse_statistics ports_without_host) = 1
  /\ scan_status (_parse_statistics ports_without_host) = "implied_host_up".
Proof.
  apply (parse_implied_host_up ports_without_host).
  - vm_compute. reflexivity.
  - vm_compute. discriminate.
Defined.

(** ** Further properties of [scan] *)

(** X9.  For a profile of the table, [scan] spawns exactly one
    subprocess: the command is "nmap", the flags of the profile and the
    target, separated by single spaces, and the time limit is 900 for the
    profile "vulnerability" and 600 for every other one. *)
Theorem scan_spawns_once (env : Env) (target profile : string) (info : Profile) :
  SCAN_PROFILES !! profile = Some info ->
  spawns (fst (scan env target profile))
  = [Spawn ("nmap " +:+ command info +:+ " " +:+ target)
           (if String.eqb profile "vulnerability" then 900 else 600)].
Proof.
  intros H. unfold scan. rewrite H.
  destruct (run env (command_line info target) (timeout_of profile));
    repeat match goal with
           | |- context [if reports_written ?e ?r ?p then _ else _] =>
               destruct (reports_written e r p)
           end; reflexivity.
Qed.

Lemma scan_spawns_once_witness :
  spawns (fst (scan timing_out "10.0.0.5" "vulnerability"))
  = [Spawn ("nmap " +:+ command (mkProfile "-sV --script vuln,safe"
                                           "Vulnerability assessment" "Very Slow")
            +:+ " " +:+ "10.0.0.5")
           (if String.eqb "vulnerability" "vulnerability" then 900 else 600)].
Proof.
  apply (scan_spawns_once timing_out "10.0.0.5" "vulnerability").
  vm_compute. reflexivity.
Defined.

(** X10.  A result that [scan] returns and that is not the empty dict is
    the very result that it handed to the report writer, under the same
    profile. *)
Theorem scan_returns_saved (env : Env) (target profile : string)
        (r : gmap string value) :
  snd (scan env target profile) = Return r ->
  r <> ∅ ->
  In (SaveReports r profile) (fst (scan env target profile)).
Proof.
  unfold scan. destruct (SCAN_PROFILES !! profile) as [info|]; [|discriminate].
  destruct (run env (command_line info target) (timeout_of profile));
    repeat match goal with
           | |- context [if reports_written ?e ?r ?p then _ else _] =>
               destruct (reports_written e r p)
           end; cbn [fst snd]; intros H Hne;
    try discriminate H; injection H as <-;
    try (now elim Hne); cbn; auto.
Qed.

Lemma scan_returns_saved_witness :
  In (SaveReports quick_result "quick")
     (fst (scan (answering report_with_one_port) "10.0.0.5" "quick")).
Proof.
  apply (scan_returns_saved (answering report_with_one_port)
                            "10.0.0.5" "quick" quick_result).
  - vm_compute. reflexivity.
  - intros E. apply (f_equal (fun m => has_key "raw_output" m)) in E.
    vm_compute in E. discriminate E.
Defined.

Lemma scan_result_raw_output (env : Env) (target profile cmd : string)
      (returncode : Z) (stdout stderr : string) :
  scan_result env target profile cmd returncode stdout stderr !! "raw_output"
  = Some (VStr stdout).
Proof. vm_compute. reflexivity. Qed.

Lemma scan_result_statistics (env : Env) (target profile cmd : string)
      (returncode : Z) (stdout stderr : string) :
  scan_result env target profile cmd returncode stdout stderr !! "statistics"
  = Some (VDict (stats_dict (_parse_statistics stdout))).
Proof.
  unfold scan_result. generalize (stats_dict (_parse_statistics stdout)) as d.
  intros d. vm_compute. reflexivity.
Qed.

Lemma partial_result_raw_output (env : Env) (target profile cmd : string) :
  partial_result env target profile cmd !! "raw_output" = None.
Proof. vm_compute. reflexivity. Qed.

(** X11.  In every result that [scan] returns, the statistics are those
    of the raw output that the result holds: they are never taken from
    another text. *)
Theorem scan_statistics_of_raw_output (env : Env) (target profile : string)
        (r : gmap string value) (out : string) :
  snd (scan env target profile) = Return r ->
  r !! "raw_output" = Some (VStr out) ->
  r !! "statistics" = Some (VDict (stats_dict (_parse_statistics out))).
Proof.
  unfold scan. destruct (SCAN_PROFILES !! profile) as [info|]; [|discriminate].
  destruct (run env (command_line info target) (timeout_of profile));
    repeat match goal with
           | |- context [if reports_written ?e ?r ?p then _ else _] =>
               destruct (reports_written e r p)
           end; cbn [fst snd]; intros H Hraw;
    try discriminate H; injection H as <-.
  - rewrite scan_result_raw_output in Hraw. injection Hraw as <-.
    apply scan_result_statistics.
  - rewrite lookup_empty in Hraw. discriminate Hraw.
  - rewrite partial_result_raw_output in Hraw. discriminate Hraw.
  - rewrite lookup_empty in Hraw. discriminate Hraw.
Qed.

Lemma scan_statistics_of_raw_output_witness :
  quick_result !! "statistics"
  = Some (VDict (stats_dict (_parse_statistics report_with_one_port))).
Proof.
  apply (scan_statistics_of_raw_output (answering report_with_one_port)
                                       "10.0.0.5" "quick" quick_result
                                       report_with_one_port).
  - vm_compute. reflexivity.
  - vm_compute. reflexivity.
Defined.

Example safe_target_ex : safe_target "192.168.1.0/24" = "192_168_1_0_24".
Proof. vm_compute. reflexivity. Qed.

Example vulnerabilities_html_ex :
  _generate_vulnerabilities_html ["CVE-1"]
  = vulnerabilities_heading +:+ "<div class=" +:+ dq +:+ "vuln-list" +:+ dq +:+ ">"
    +:+ vuln_item "CVE-1" +:+ "</div>".
Proof. vm_compute. reflexivity. Qed.

(** ** Facts about strings for the report writer *)

Section Appends.

Lemma append_nil (s : string) : EmptyString +:+ s = s.
Proof. reflexivity. Qed.

Lemma append_cons (c : ascii) (s t : string) :
  String c s +:+ t = String c (s +:+ t).
Proof. reflexivity. Qed.

Lemma append_assoc (a b c : string) : (a +:+ b) +:+ c = a +:+ (b +:+ c).
Proof.
  induction a as [|x a IH]; [reflexivity|].
  rewrite !append_cons, IH. reflexivity.
Qed.

Lemma length_append (a b : string) :
  String.length (a +:+ b) = (String.length a + String.length b)%nat.
Proof.
  induction a as [|x a IH]; [reflexivity|].
  rewrite append_cons. cbn [String.length]. rewrite IH. reflexivity.
Qed.

Lemma prefix_single (x c : ascii) (s : string) :
  String.prefix (String x EmptyString) (String c s) = Ascii.eqb c x.
Proof.
  cbn. destruct (Ascii.ascii_dec x c) as [->|Hne].
  - rewrite Ascii.eqb_refl. apply prefix_nil.
  - symmetry. apply Ascii.eqb_neq. congruence.
Qed.

Lemma contains_char (x : ascii) (s : string) :
  contains (String x EmptyString) s = has_char x s.
Proof.
  induction s as [|c s IH]; [reflexivity|].
  change (String.prefix (String x EmptyString) (String c s)
          || contains (String x EmptyString) s = has_char x (String c s)).
  rewrite prefix_single, IH. reflexivity.
Qed.

Lemma has_char_append (x : ascii) (a b : string) :
  has_char x (a +:+ b) = has_char x a || has_char x b.
Proof.
  induction a as [|c a IH]; [reflexivity|].
  rewrite append_cons. cbn [has_char]. rewrite IH. apply orb_assoc.
Qed.

Lemma replace_char (a b : ascii) (s : string) :
  replace (String a EmptyString) (String b EmptyString) s = subst_char a b s.
Proof.
  unfold replace. induction s as [|c s IH]; [reflexivity|].
  cbn [replace_from subst_char]. rewrite prefix_single.
  cbn [String.length Nat.pred]. rewrite IH.
  destruct (Ascii.eqb c a); reflexivity.
Qed.

Lemma subst_char_removes (a b : ascii) (s : string) :
  a <> b -> has_char a (subst_char a b s) = false.
Proof.
  intros Hne. induction s as [|c s IH]; [reflexivity|].
  cbn [subst_char has_char]. rewrite IH, orb_false_r.
  destruct (Ascii.eqb c a) eqn:E; [|exact E].
  apply Ascii.eqb_neq. congruence.
Qed.

Lemma subst_char_keeps_out (a b x : ascii) (s : string) :
  b <> x -> has_char x s = false -> has_char x (subst_char a b s) = false.
Proof.
  intros Hne. induction s as [|c s IH]; [reflexivity|].
  cbn [subst_char has_char]. intros H.
  apply orb_false_iff in H as [Hc Hs]. rewrite (IH Hs), orb_false_r.
  destruct (Ascii.eqb c a); [apply Ascii.eqb_neq; exact Hne | exact Hc].
Qed.

Lemma subst_char_length (a b : ascii) (s : string) :
  String.length (subst_char a b s) = String.length s.
Proof.
  induction s as [|c s IH]; [reflexivity|].
  cbn [subst_char String.length]. rewrite IH. reflexivity.
Qed.

End Appends.

(** ** Properties of the report writer *)

Lemma safe_target_chars (target : string) :
  safe_target target = subst_char "." "_" (subst_char "/" "_" target).
Proof.
  unfold safe_target.
  change "/" with (String "/"%char EmptyString).
  change "." with (String "."%char EmptyString).
  change "_" with (String "_"%char EmptyString).
  rewrite !replace_char. reflexivity.
Qed.

Lemma safe_target_no_slash (target : string) :
  has_char "/" (safe_target target) = false.
Proof.
  rewrite safe_target_chars.
  apply subst_char_keeps_out; [discriminate|].
  apply subst_char_removes. discriminate.
Qed.

(** X12.  The name part that [_save_reports] makes from the target holds
    neither "/" nor ".", and has the length of the target: every such
    character is replaced by one "_". *)
Theorem safe_target_clean (target : string) :
  contains "/" (safe_target target) = false
  /\ contains "." (safe_target target) = false
  /\ String.length (safe_target target) = String.length target.
Proof.
  change "/" with (String "/"%char EmptyString).
  change "." with (String "."%char EmptyString).
  rewrite !contains_char. repeat split.
  - apply safe_target_no_slash.
  - rewrite safe_target_chars. apply subst_char_removes. discriminate.
  - rewrite safe_target_chars, !subst_char_length. reflexivity.
Qed.

Section FileNames.

Lemma profile_known (profile : string) (info : Profile) :
  SCAN_PROFILES !! profile = Some info ->
  In profile ["discovery"; "quick"; "comprehensive"; "vulnerability"; "udp"].
Proof.
  intros H. unfold SCAN_PROFILES in H.
  apply elem_of_list_to_map_2 in H. apply list_elem_of_In in H.
  unfold profile_entries in H. cbn [In] in H.
  repeat (destruct H as [H|H]; [injection H as <- _; cbn; tauto|]).
  destruct H.
Qed.

Lemma profile_no_slash (profile : string) (info : Profile) :
  SCAN_PROFILES !! profile = Some info -> has_char "/" profile = false.
Proof.
  intros H. apply profile_known in H. cbn [In] in H.
  repeat (destruct H as [<-|H]; [reflexivity|]). destruct H.
Qed.

Lemma append_differs (base a b : string) : a <> b -> base +:+ a <> base +:+ b.
Proof. intros Hne E. apply Hne. eapply String.app_inj, E. Qed.

End FileNames.

(** X13.  For a profile of the table and a time stamp without "/", the
    four report files are four different files, each directly inside the
    output directory: what follows the directory and its "/" holds no
    further "/", whatever the target is. *)
Theorem report_files_in_directory
        (output_dir target profile timestamp : string) (info : Profile) :
  SCAN_PROFILES !! profile = Some info ->
  contains "/" timestamp = false ->
  List.NoDup (report_files output_dir target profile timestamp)
  /\ Forall (fun file => exists name,
                 file = output_dir +:+ "/" +:+ name
                 /\ contains "/" name = false)
            (report_files output_dir target profile timestamp).
Proof.
  intros Hprofile Hstamp. split.
  - unfold report_files. cbn zeta.
    repeat (apply List.NoDup_cons;
            [cbn [In]; intros H;
             repeat (destruct H as [H|H];
                     [revert H; apply append_differs; discriminate|]);
             destruct H|]).
    apply List.NoDup_nil.
  - assert (Hbase : forall ext,
               has_char "/" ext = false ->
               exists name,
                 base_name output_dir target profile timestamp +:+ ext
                 = output_dir +:+ "/" +:+ name
                 /\ contains "/" name = false).
    { intros ext Hext.
      exists (safe_target target +:+ "_" +:+ profile +:+ "_" +:+ timestamp +:+ ext).
      split.
      - unfold base_name. rewrite !append_assoc. reflexivity.
      - change "/" with (String "/"%char EmptyString) in *.
        rewrite contains_char in *. rewrite !has_char_append.
        rewrite safe_target_no_slash, (profile_no_slash profile info Hprofile),
          Hstamp, Hext.
        reflexivity. }
    unfold report_files. cbn zeta.
    repeat (apply List.Forall_cons; [apply Hbase; reflexivity|]).
    apply List.Forall_nil.
Qed.

Lemma report_files_in_directory_witness :
  List.NoDup (report_files "reports" climbing_target "quick" "20250101_120000")
  /\ Forall (fun file => exists name,
                 file = "reports" +:+ "/" +:+ name
                 /\ contains "/" name = false)
            (report_files "reports" climbing_target "quick" "20250101_120000").
Proof.
  apply (report_files_in_directory
           "reports" climbing_target "quick" "20250101_120000"
           (mkProfile "-sS -T4 -F" "Quick TCP port scan" "Medium")).
  - vm_compute. reflexivity.
  - vm_compute. reflexivity.
Defined.

(** X14.  Every result that [scan] hands to the report writer has, under
    "metadata", the five keys that the text report reads by indexing, so
    that no [KeyError] arises there; the partial result of a time-out
    included. *)
Theorem saved_results_have_metadata (env : Env) (target profile p : string)
        (r : gmap string value) :
  In (SaveReports r p) (fst (scan env target profile)) ->
  forallb (metadata_has r) indexed_metadata_keys = true.
Proof.
  unfold scan. destruct (SCAN_PROFILES !! profile) as [info|]; [|intros []].
  cbv zeta.
  destruct (run env (command_line info target) (timeout_of profile));
    repeat match goal with
           | |- context [if reports_written ?e ?r ?p then _ else _] =>
               destruct (reports_written e r p)
           end; cbn [fst In]; intros H;
    repeat (destruct H as [H|H]); try discriminate H; try contradiction;
    injection H as <- _; vm_compute; reflexivity.
Qed.

Lemma saved_results_have_metadata_witness :
  forallb (metadata_has
             (partial_result timing_out "10.0.0.5" "quick"
                             "nmap -sS -T4 -F 10.0.0.5"))
          indexed_metadata_keys = true.
Proof.
  apply (saved_results_have_metadata
           timing_out "10.0.0.5" "quick" "quick"
           (partial_result timing_out "10.0.0.5" "quick"
                           "nmap -sS -T4 -F 10.0.0.5")).
  vm_compute. right. left. reflexivity.
Defined.

Section Fragments.

Lemma prefix_append (s t : string) : String.prefix s (s +:+ t) = true.
Proof.
  induction s as [|c s IH]; [apply prefix_nil|].
  rewrite append_cons. apply prefix_cons, IH.
Qed.

Lemma prefix_same (s : string) : String.prefix s s = true.
Proof.
  induction s as [|c s IH]; [reflexivity|]. apply prefix_cons, IH.
Qed.

Lemma contains_append_r (x s t : string) :
  contains x t = true -> contains x (s +:+ t) = true.
Proof.
  intros H. induction s as [|c s IH]; [exact H|].
  rewrite append_cons. apply contains_later, IH.
Qed.

Lemma contains_append_l (x s t : string) :
  contains x s = true -> contains x (s +:+ t) = true.
Proof.
  intros H. eapply contains_prefix_trans; [exact H|apply prefix_append].
Qed.

Lemma fold_append_keeps {A : Type} (f : A -> string) (items : list A)
      (x acc : string) :
  contains x acc = true ->
  contains x (fold_left (fun html i => html +:+ f i) items acc) = true.
Proof.
  revert acc. induction items as [|i items IH]; intros acc H; [exact H|].
  cbn [fold_left]. apply IH, contains_append_l, H.
Qed.

Lemma fold_append_contains {A : Type} (f : A -> string) (items : list A)
      (i : A) (acc : string) :
  In i items ->
  contains (f i) (fold_left (fun html i => html +:+ f i) items acc) = true.
Proof.
  revert acc. induction items as [|j items IH]; intros acc H; [destruct H|].
  cbn [fold_left]. destruct H as [->|H]; [|apply IH, H].
  apply fold_append_keeps, contains_append_r, contains_here, prefix_same.
Qed.

Lemma length_substring (n : nat) (s : string) :
  (n <= String.length s)%nat -> String.length (String.substring 0 n s) = n.
Proof.
  revert s. induction n as [|n IH]; intros s H.
  - destruct s; reflexivity.
  - destruct s as [|c s]; [cbn in H; lia|].
    cbn [String.substring String.length]. f_equal. apply IH.
    cbn in H. lia.
Qed.

Lemma port_fields_row (p : PortInfo) :
  ports_row (port_fields p) = port_row_text p.
Proof.
  destruct p as [po pr st se ve]. unfold ports_row, port_row_text, dict_get.
  replace (port_fields (mkPortInfo po pr st se ve) !! "port") with (Some po)
    by (destruct ve; vm_compute; reflexivity).
  replace (port_fields (mkPortInfo po pr st se ve) !! "protocol") with (Some pr)
    by (destruct ve; vm_compute; reflexivity).
  replace (port_fields (mkPortInfo po pr st se ve) !! "state") with (Some st)
    by (destruct ve; vm_compute; reflexivity).
  replace (port_fields (mkPortInfo po pr st se ve) !! "service") with (Some se)
    by (destruct ve; vm_compute; reflexivity).
  cbn [port protocol state service].
  rewrite !append_assoc. reflexivity.
Qed.

End Fragments.

(** X15.  The fragment for the vulnerabilities is the empty string exactly
    for the empty list: the section is left out of the report only when
    there is nothing to list. *)
Theorem vulnerabilities_html_empty (vulnerabilities : list string) :
  _generate_vulnerabilities_html vulnerabilities = EmptyString
  <-> vulnerabilities = [].
Proof.
  split; [|intros ->; reflexivity].
  destruct vulnerabilities as [|v vs]; [reflexivity|].
  unfold _generate_vulnerabilities_html. cbv zeta. intros H.
  apply (f_equal String.length) in H. rewrite length_append in H.
  cbn in H. lia.
Qed.

(** X16.  Two lists of the same length with the same first ten entries
    give the same fragment: an entry after the tenth counts, and its text
    is not shown. *)
Theorem vulnerabilities_html_first_ten (a b : list string) :
  firstn 10 a = firstn 10 b ->
  length a = length b ->
  _generate_vulnerabilities_html a = _generate_vulnerabilities_html b.
Proof.
  intros Hfirst Hlen. unfold _generate_vulnerabilities_html.
  destruct a as [|x a], b as [|y b]; try discriminate Hlen; [reflexivity|].
  cbv zeta. rewrite Hfirst, Hlen. reflexivity.
Qed.

Lemma vulnerabilities_html_first_ten_witness :
  _generate_vulnerabilities_html (twelve_findings "CVE-12")
  = _generate_vulnerabilities_html (twelve_findings "exploit available").
Proof.
  apply (vulnerabilities_html_first_ten
           (twelve_findings "CVE-12") (twelve_findings "exploit available"));
    reflexivity.
Defined.

(** X17.  Each of the first ten vulnerabilities is in the fragment inside
    its own [div], character for character: nothing is escaped, so a
    finding that is markup is markup in the report. *)
Theorem vulnerabilities_html_verbatim (vulnerabilities : list string)
        (vuln : string) :
  In vuln (firstn 10 vulnerabilities) ->
  contains ("<div class=" +:+ dq +:+ "vuln-item" +:+ dq +:+ ">" +:+ vuln
            +:+ "</div>")
           (_generate_vulnerabilities_html vulnerabilities) = true
  /\ contains vuln (_generate_vulnerabilities_html vulnerabilities) = true.
Proof.
  intros Hin.
  assert (Hitem : contains (vuln_item vuln)
                    (_generate_vulnerabilities_html vulnerabilities) = true).
  { unfold _generate_vulnerabilities_html.
    destruct vulnerabilities as [|v vs]; [destruct Hin|]. cbv zeta.
    apply contains_append_l.
    destruct (10 <? length (v :: vs))%nat;
      [apply contains_append_l|];
      apply (fold_append_contains vuln_item), Hin. }
  split; [exact Hitem|].
  eapply contains_trans; [|exact Hitem].
  unfold vuln_item. rewrite <- !append_assoc.
  apply contains_append_l, contains_append_r, contains_here, prefix_same.
Qed.

Lemma vulnerabilities_html_verbatim_witness :
  contains ("<div class=" +:+ dq +:+ "vuln-item" +:+ dq +:+ ">"
            +:+ markup_finding +:+ "</div>")
           (_generate_vulnerabilities_html ["CVE-1"; markup_finding]) = true
  /\ contains markup_finding
              (_generate_vulnerabilities_html ["CVE-1"; markup_finding]) = true.
Proof.
  apply (vulnerabilities_html_verbatim ["CVE-1"; markup_finding] markup_finding).
  cbn. right. left. reflexivity.
Defined.

(** X18.  Each port record of the list has its row in the table of the
    ports fragment, with port, protocol, state and service character for
    character, and the class "port-open" exactly for the state "open". *)
Theorem ports_html_rows (ports : list PortInfo) (p : PortInfo) :
  In p ports ->
  contains (port_row_text p) (_generate_ports_html (map port_fields ports))
  = true.
Proof.
  intros Hin. unfold _generate_ports_html.
  destruct ports as [|q ports]; [destruct Hin|].
  cbn [map]. cbv zeta. apply contains_append_l.
  rewrite <- port_fields_row.
  apply (fold_append_contains ports_row).
  change (port_fields q :: map port_fields ports)
    with (map port_fields (q :: ports)).
  apply in_map, Hin.
Qed.

Lemma ports_html_rows_witness :
  contains (port_row_text markup_port)
           (_generate_ports_html
              (map port_fields [mkPortInfo "22" "tcp" "open" "ssh" None;
                                markup_port]))
  = true.
Proof.
  apply (ports_html_rows [mkPortInfo "22" "tcp" "open" "ssh" None; markup_port]
                         markup_port).
  cbn. right. left. reflexivity.
Defined.

(** X19.  What the console shows of a service has the length of the
    service or 30, whichever is less, and what it shows of a vulnerability
    the length of the vulnerability or 60: a text may be cut, never
    grown. *)
Theorem shown_lengths (service vuln : string) :
  String.length (shown_service service)
  = Nat.min (String.length service) 30
  /\ String.length (shown_vulnerability vuln)
     = Nat.min (String.length vuln) 60.
Proof.
  unfold shown_service, shown_vulnerability. split.
  - destruct (Nat.ltb_spec 30 (String.length service)) as [H|H]; [|lia].
    rewrite length_append, length_substring by lia. cbn. lia.
  - destruct (Nat.ltb_spec 60 (String.length vuln)) as [H|H]; [|lia].
    rewrite length_append, length_substring by lia. cbn. lia.
Qed.

(** ** Properties of the converter *)

Section Replace.

Lemma replace_from_absent (old new s : string) :
  contains old s = false -> replace_from old new 0 s = s.
Proof.
  induction s as [|c s IH]; intros H; [reflexivity|].
  change (String.prefix old (String c s) || contains old s = false) in H.
  apply orb_false_iff in H as [Hp Hc].
  cbn [replace_from]. rewrite Hp, (IH Hc). reflexivity.
Qed.

Lemma prefix_other_head (x c : ascii) (old s : string) :
  Ascii.eqb c x = false -> String.prefix (String x old) (String c s) = false.
Proof.
  intros H. cbn. destruct (Ascii.ascii_dec x c) as [->|Hne]; [|reflexivity].
  rewrite Ascii.eqb_refl in H. discriminate H.
Qed.

Lemma html_file_of_json (base : string) :
  has_char "." base = false ->
  html_file (base +:+ ".json") = base +:+ "_report.html".
Proof.
  unfold html_file, replace.
  induction base as [|c base IH]; intros H; [reflexivity|].
  cbn [has_char] in H. apply orb_false_iff in H as [Hc Hb].
  rewrite !append_cons. cbn [replace_from].
  change ".json" with (String "."%char "json") at 1.
  rewrite (prefix_other_head _ _ _ _ Hc), (IH Hb). reflexivity.
Qed.

End Replace.

(** X20.  For a file name without ".json" the converter writes the HTML
    to the file it has just read: the name of the output is the name of
    the input. *)
Theorem html_file_without_json (json_file : string) :
  contains ".json" json_file = false -> html_file json_file = json_file.
Proof. apply replace_from_absent. Qed.

Lemma html_file_without_json_witness : html_file capital_json = capital_json.
Proof. apply (html_file_without_json capital_json). reflexivity. Defined.

(** X21.  For a profile of the table, an output directory and a time stamp
    without ".", the converter run on the JSON report of a scan writes to
    the HTML report of the same scan: the file that [_save_reports] wrote
    is replaced. *)
Theorem html_file_of_scan_report
        (output_dir target profile timestamp : string) (info : Profile) :
  SCAN_PROFILES !! profile = Some info ->
  contains "." output_dir = false ->
  contains "." timestamp = false ->
  html_file (base_name output_dir target profile timestamp +:+ ".json")
  = base_name output_dir target profile timestamp +:+ "_report.html".
Proof.
  intros Hprofile Hdir Hstamp. apply html_file_of_json.
  change "." with (String "."%char EmptyString) in Hdir, Hstamp.
  rewrite contains_char in Hdir, Hstamp.
  unfold base_name. rewrite !has_char_append, Hdir, Hstamp.
  rewrite safe_target_chars, subst_char_removes by discriminate.
  apply profile_known in Hprofile. cbn [In] in Hprofile.
  repeat (destruct Hprofile as [<-|Hprofile]; [reflexivity|]).
  destruct Hprofile.
Qed.

Lemma html_file_of_scan_report_witness :
  html_file (base_name "reports" "192.168.1.0/24" "quick" "20250101_120000"
             +:+ ".json")
  = base_name "reports" "192.168.1.0/24" "quick" "20250101_120000"
    +:+ "_report.html".
Proof.
  apply (html_file_of_scan_report
           "reports" "192.168.1.0/24" "quick" "20250101_120000"
           (mkProfile "-sS -T4 -F" "Quick TCP port scan" "Medium"));
    vm_compute; reflexivity.
Defined.

(** X22.  On the JSON report of a scan the converter finds none of its
    three fields: [scan] keeps target and time stamp under "metadata" and
    has no "scan_type", so target, scan type and time stamp all come out
    as "Unknown".  (The object that [json.load] reads from the file has
    the keys of the result that [json.dump] wrote.) *)
Theorem header_fields_of_scan (env : Env) (target profile p : string)
        (r : gmap string value) :
  In (SaveReports r p) (fst (scan env target profile)) ->
  header_fields r = (VStr "Unknown", VStr "Unknown", VStr "Unknown").
Proof.
  unfold scan. destruct (SCAN_PROFILES !! profile) as [info|]; [|intros []].
  cbv zeta.
  destruct (run env (command_line info target) (timeout_of profile));
    repeat match goal with
           | |- context [if reports_written ?e ?r ?p then _ else _] =>
               destruct (reports_written e r p)
           end; cbn [fst In]; intros H;
    repeat (destruct H as [H|H]); try discriminate H; try contradiction;
    injection H as <- _; vm_compute; reflexivity.
Qed.

Lemma header_fields_of_scan_witness :
  header_fields quick_result
  = (VStr "Unknown", VStr "Unknown", VStr "Unknown").
Proof.
  apply (header_fields_of_scan (answering report_with_one_port)
                               "10.0.0.5" "quick" "quick" quick_result).
  right. left. reflexivity.
Defined.

(** ** The text report of a scan *)

Section TextReport.

Lemma append_empty_r (s : string) : s +:+ EmptyString = s.
Proof.
  induction s as [|c s IH]; [reflexivity|]. rewrite append_cons, IH.
  reflexivity.
Qed.

Lemma text_report_scan_result (env : Env) (target profile cmd : string)
      (returncode : Z) (stdout stderr : string) :
  text_report (scan_result env target profile cmd returncode stdout stderr)
  = Some (report_text target profile (now env) cmd
                      (if (returncode =? 0)%Z then "True" else "False")
                      stdout stderr).
Proof. vm_compute. reflexivity. Qed.

Lemma text_report_partial_result (env : Env) (target profile cmd : string) :
  text_report (partial_result env target profile cmd)
  = Some (report_text target profile (now env) cmd "False"
                      EmptyString EmptyString).
Proof. vm_compute. reflexivity. Qed.

End TextReport.

(** X23.  When the subprocess completes, the text report of the result
    that [scan] saves is written without error: it names the target,
    tells success exactly for the return code 0, holds the raw output
    character for character (or the notice, for an empty output), and
    has the section of the errors with the raw errors when there are
    any. *)
Theorem text_report_of_completed (env : Env) (target profile : string)
        (info : Profile) (returncode : Z) (stdout stderr : string) :
  SCAN_PROFILES !! profile = Some info ->
  run env (command_line info target) (timeout_of profile)
  = Completed returncode stdout stderr ->
  exists r text,
    In (SaveReports r profile) (fst (scan env target profile))
    /\ text_report r = Some text
    /\ contains ("Target: " +:+ target +:+ nl) text = true
    /\ contains ("Success: "
                 +:+ (if (returncode =? 0)%Z then "True" else "False") +:+ nl)
                text = true
    /\ contains (if is_empty stdout
                 then "No scan output available" +:+ nl else stdout)
                text = true
    /\ (is_empty stderr = false ->
        contains ("ERRORS/ADVERTENCIAS:" +:+ nl +:+ rule +:+ nl +:+ stderr)
                 text = true).
Proof.
  intros Hprofile Hrun.
  exists (scan_result env target profile (command_line info target)
                      returncode stdout stderr).
  eexists. split; [|split; [apply text_report_scan_result|]].
  - unfold scan. rewrite Hprofile. cbv zeta. rewrite Hrun.
    destruct (reports_written env _ profile); right; left; reflexivity.
  - unfold report_text.
    repeat split;
      try (repeat first [ apply contains_here, prefix_append
                         | apply contains_here, prefix_same
                         | apply contains_append_r ]).
    intros ->. do 9 apply contains_append_r. cbv iota.
    rewrite !append_assoc. do 3 apply contains_append_r.
    apply contains_here, prefix_same.
Qed.

Lemma text_report_of_completed_witness :
  exists r text,
    In (SaveReports r "quick")
       (fst (scan (answering report_with_one_port) "10.0.0.5" "quick"))
    /\ text_report r = Some text
    /\ contains ("Target: " +:+ "10.0.0.5" +:+ nl) text = true
    /\ contains ("Success: " +:+ (if (0 =? 0)%Z then "True" else "False")
                 +:+ nl) text = true
    /\ contains (if is_empty report_with_one_port
                 then "No scan output available" +:+ nl
                 else report_with_one_port)
                text = true
    /\ (is_empty EmptyString = false ->
        contains ("ERRORS/ADVERTENCIAS:" +:+ nl +:+ rule +:+ nl +:+ EmptyString)
                 text = true).
Proof.
  apply (text_report_of_completed
           (answering report_with_one_port) "10.0.0.5" "quick"
           (mkProfile "-sS -T4 -F" "Quick TCP port scan" "Medium")
           0 report_with_one_port EmptyString).
  - vm_compute. reflexivity.
  - reflexivity.
Defined.

(** X24.  When the time limit expires, the text report of the partial
    result is written without error as well: it tells that the scan did
    not succeed, and it ends with the notice that stands for a missing
    output: no section of errors follows. *)
Theorem text_report_of_timeout (env : Env) (target profile : string)
        (info : Profile) :
  SCAN_PROFILES !! profile = Some info ->
  run env (command_line info target) (timeout_of profile) = TimeoutExpired ->
  exists r text,
    In (SaveReports r profile) (fst (scan env target profile))
    /\ text_report r = Some text
    /\ contains ("Success: False" +:+ nl) text = true
    /\ exists head, text = head +:+ "No scan output available" +:+ nl.
Proof.
  intros Hprofile Hrun.
  exists (partial_result env target profile (command_line info target)).
  eexists. split; [|split; [apply text_report_partial_result|]].
  - unfold scan. rewrite Hprofile. cbv zeta. rewrite Hrun.
    destruct (reports_written env _ profile); right; left; reflexivity.
  - unfold report_text. cbn [is_empty]. split.
    + repeat first [ apply contains_here, prefix_append
                       | apply contains_here, prefix_same
                       | apply contains_append_r ].
    + eexists. rewrite append_empty_r, <- !append_assoc. reflexivity.
Qed.

Lemma text_report_of_timeout_witness :
  exists r text,
    In (SaveReports r "quick") (fst (scan timing_out "10.0.0.5" "quick"))
    /\ text_report r = Some text
    /\ contains ("Success: False" +:+ nl) text = true
    /\ exists head, text = head +:+ "No scan output available" +:+ nl.
Proof.
  apply (text_report_of_timeout
           timing_out "10.0.0.5" "quick"
           (mkProfile "-sS -T4 -F" "Quick TCP port scan" "Medium")).
  - vm_compute. reflexivity.
  - reflexivity.
Defined.
